(** * DExTer: the Visual Studio driver and the sandboxed debugger runner

    A shallow embedding of
      - [dex/debugger/visualstudio/VisualStudio.py] (the DTE driver),
      - [dex/tools/run_debugger_internal_/Tool.py] (the sandbox subtool),
      - the error handling of [dex/tools/Main.py],
    together with the properties of the design document that concern them. *)

From Stdlib Require Import ZArith String Ascii List Bool Lia.
From stdpp Require Import base option list strings gmap.

Local Open Scope string_scope.
Local Open Scope list_scope.

(** ** Python primitives used by the sources *)

Module Py.

(** Exceptions that the embedded code raises, catches or lets through. *)
Inductive exn : Type :=
| Error (msg : string)                  (* dex.utils.Exceptions.Error *)
| ToolArgumentError (msg : string)
| DebuggerException (msg : string)
| LoadDebuggerException (msg : string)
| AttributeError (msg : string)
| TypeError (msg : string)
| IOError (msg : string)
| KeyboardInterrupt
| SystemExit (code : Z)
| OtherException (msg : string).

Inductive result (A : Type) : Type :=
| Ok (a : A)
| Raise (e : exn).
Arguments Ok {A} a.
Arguments Raise {A} e.

(** [s in t] on Python strings: [s] occurs in [t] as a contiguous
    substring. *)
Fixpoint str_in (s t : string) : bool :=
  String.prefix s t ||
  match t with
  | EmptyString => false
  | String _ t' => str_in s t'
  end.

(** The line feed written [\n] in the sources. *)
Definition nl : string := String "010"%char "".

(** [any(p(x) for x in xs)] *)
Definition any {A} (p : A -> bool) (xs : list A) : bool := existsb p xs.

(** [sep.join(xs)] *)
Fixpoint join (sep : string) (xs : list string) : string :=
  match xs with
  | [] => ""
  | [x] => x
  | x :: rest => x +:+ sep +:+ join sep rest
  end.

(** Values that live in an [argparse] namespace. *)
Inductive value : Type :=
| VNone
| VBool (b : bool)
| VInt (z : Z)
| VStr (s : string)
| VList (l : list string).

(** Truth value of an object, as tested by [if] and [or]. *)
Definition truthy (v : value) : bool :=
  match v with
  | VNone => false
  | VBool b => b
  | VInt z => negb (z =? 0)%Z
  | VStr s => negb (String.eqb s "")
  | VList l => match l with [] => false | _ => true end
  end.

(** [v[:]]: a full slice copies a sequence and is a [TypeError] on
    anything else. *)
Definition slice_all (v : value) : result value :=
  match v with
  | VStr s => Ok (VStr s)
  | VList l => Ok (VList l)
  | _ => Raise (TypeError "object is not subscriptable")
  end.

End Py.
Export Py.

(** ** The trace records built by the driver ([dex.dextIR]) *)

Module DextIR.

(** Modelled from the spec: the stop reasons of a Step, section 3 (the
    enumeration is declared in [dex.dextIR], not embedded here);
    [OTHER] stands for the further reasons the spec leaves open. *)
Inductive StopReason : Type :=
| BREAKPOINT
| STEP
| PROGRAM_EXIT
| ERROR
| OTHER.

(** The records below have the fields that the driver passes to their
    constructors. *)
Record LocIR : Type := mkLocIR {
  path : option string;
  lineno : option Z;
  column : option Z
}.

Record FrameIR : Type := mkFrameIR {
  function : option string;
  is_inlined : bool;
  loc : LocIR
}.

Record StepIR : Type := mkStepIR {
  step_index : Z;
  frames : list FrameIR;
  stop_reason : StopReason
}.

Record ValueIR : Type := mkValueIR {
  expression : string;
  value_text : string;               (* field [value] *)
  type_name : string;                (* field [type] *)
  error_string : option string;
  is_optimized_away : bool;
  could_evaluate : bool;
  is_irretrievable : bool
}.

Definition empty_loc : LocIR := mkLocIR None None None.

(** Modelled from the spec: the Trace of section 3, an ordered sequence of
    Steps with the identity of the debugger that produced them (class
    [DextIR] is not embedded here; the subtool only assigns its field
    [debugger] and reads its property [as_json]). *)
Record DextIR : Type := mkDextIR {
  steps : list StepIR;
  debugger : option string
}.

End DextIR.
Export DextIR.

(** ** A state-and-exception monad

    Python methods mutate [self] and may raise; the state reached when the
    exception is raised is kept, as it is in Python. *)

Module StateExn.

Definition M (S A : Type) : Type := S -> S * result A.

Definition ret {S A} (a : A) : M S A := fun s => (s, Ok a).

Definition raise {S A} (e : exn) : M S A := fun s => (s, Raise e).

Definition bind {S A B} (m : M S A) (k : A -> M S B) : M S B :=
  fun s =>
    match m s with
    | (s', Ok a) => k a s'
    | (s', Raise e) => (s', Raise e)
    end.

Definition get {S} : M S S := fun s => (s, Ok s).
Definition modify {S} (f : S -> S) : M S unit := fun s => (f s, Ok tt).

(** Lift a fallible pure computation. *)
Definition lift {S A} (r : result A) : M S A := fun s => (s, r).

Declare Scope stexn_scope.
Delimit Scope stexn_scope with stexn.
Notation "x <- m ;; k" := (bind m (fun x => k))
  (at level 100, m at next level, right associativity) : stexn_scope.
Notation "m ;;; k" := (bind m (fun _ => k))
  (at level 100, right associativity) : stexn_scope.

End StateExn.
Import StateExn.

(** ** The Visual Studio driver ([VisualStudio.py]) *)

Module VisualStudio.

(** *** The automation objects the driver talks to (DTE, over COM) *)

Record StackFrame : Type := mkStackFrame {
  FunctionName : string
}.

(** The current thread of the debuggee. *)
Record Thread : Type := mkThread {
  StackFrames : list StackFrame
}.

(** A breakpoint object; an attribute that [getattr(bp, _, None)] does not
    find is [None]. *)
Record Breakpoint : Type := mkBreakpoint {
  File : option string;
  FileLine : option Z;
  FileColumn : option Z
}.

(** The object returned by [Debugger.GetExpression]. *)
Record Expression : Type := mkExpression {
  Value : string;
  Type_ : string;
  IsValidValue : bool
}.

(** The automation surface of the debugger, as far as the driver uses it.
    [B] is the state of the IDE behind the COM interface; the library
    itself is not part of the repository. *)
Class DTE (B : Type) : Type := {
  CurrentMode : B -> Z;
  CurrentThread : B -> option Thread;            (* [None] without a debuggee *)
  BreakpointLastHit : B -> option Breakpoint;
  Breakpoints : B -> list Breakpoint;
  Breakpoints_Add : string -> string -> Z -> B -> B * result unit;
  Breakpoint_Delete : Breakpoint -> B -> B * result unit;
  StepInto : B -> B * result unit;
  Go : B -> B * result unit;
  GetExpression : string -> B -> Expression
}.

(** The bound methods stored in [_fn_step] and [_fn_go]. *)
Inductive BoundMethod : Type :=
| Debugger_StepInto
| Debugger_Go.

(** Constants for results of [Debugger.CurrentMode]. *)
Definition dbgDesignMode : Z := 1.
Definition dbgBreakMode : Z := 2.
Definition dbgRunMode : Z := 3.

(** The fields of a driver object. [__init__] sets the first three to
    [None]; [_custom_init] fills them in. [vs_step_index] is the field
    [step_index] of the base class. *)
Record VisualStudio (B : Type) : Type := mkVisualStudio {
  _debugger : option B;
  _fn_step : option BoundMethod;
  _fn_go : option BoundMethod;
  vs_step_index : Z
}.
Arguments mkVisualStudio {B} _ _ _ _.
Arguments _debugger {B} _.
Arguments _fn_step {B} _.
Arguments _fn_go {B} _.
Arguments vs_step_index {B} _.

Definition init {B} (step_index : Z) : VisualStudio B :=
  mkVisualStudio None None None step_index.

Section Driver.

Context {B : Type} `{DTE B}.

(** The hook [_sanitize_function_name] of the driver base class, which
    post-processes the function name reported by the debugger. *)
Variable _sanitize_function_name : string -> option string.

Local Abbreviation Self := (VisualStudio B).

Definition set_debugger (b : B) (self : Self) : Self :=
  mkVisualStudio (Some b) (_fn_step self) (_fn_go self) (vs_step_index self).

(** An operation of [self._debugger]. *)
Definition on_debugger {A} (op : B -> B * result A) : M Self A :=
  fun self =>
    match _debugger self with
    | None =>
        (self, Raise (AttributeError "'NoneType' object has no attribute"))
    | Some b => let '(b', r) := op b in (set_debugger b' self, r)
    end.

(** Calling what [_fn_step] or [_fn_go] holds. *)
Definition call (fn : option BoundMethod) : M Self unit :=
  match fn with
  | None => raise (TypeError "'NoneType' object is not callable")
  | Some Debugger_StepInto => on_debugger StepInto
  | Some Debugger_Go => on_debugger Go
  end.

Definition _location (self : Self) : result LocIR :=
  match _debugger self with
  | None => Raise
      (AttributeError "'NoneType' object has no attribute 'BreakpointLastHit'")
  | Some b =>
      let bp := BreakpointLastHit b in
      Ok {| path := bp ≫= File;
            lineno := bp ≫= FileLine;
            column := bp ≫= FileColumn |}
  end.

Definition _mode (self : Self) : result Z :=
  match _debugger self with
  | None => Raise
      (AttributeError "'NoneType' object has no attribute 'CurrentMode'")
  | Some b => Ok (CurrentMode b)
  end.

(** [for bp in ...: bp.Delete()], taking the breakpoints as they are
    enumerated when the loop starts; how the collection of the debugger
    enumerates while its entries are deleted is not fixed by the driver. *)
Fixpoint delete_each (bps : list Breakpoint) (b : B) : B * result unit :=
  match bps with
  | [] => (b, Ok tt)
  | bp :: rest =>
      match Breakpoint_Delete bp b with
      | (b', Ok _) => delete_each rest b'
      | (b', Raise e) => (b', Raise e)
      end
  end.

Definition clear_breakpoints : M Self unit :=
  on_debugger (fun b => delete_each (Breakpoints b) b).

Definition add_breakpoint (file_ : string) (line : Z) : M Self unit :=
  on_debugger (Breakpoints_Add "" file_ line).

Definition step : M Self unit :=
  fun self => call (_fn_step self) self.

Definition launch : M Self unit :=
  (step ;;; ret tt)%stexn.

Definition go : M Self unit :=
  fun self => call (_fn_go self) self.

Definition frames_below_main : list string :=
  [ "[Inline Frame] invoke_main"; "__scrt_common_main_seh";
    "__tmainCRTStartup"; "mainCRTStartup" ].

(** The frame built for one stack frame of the debugger. *)
Definition make_frame (sf : StackFrame) : FrameIR :=
  {| function := _sanitize_function_name (FunctionName sf);
     is_inlined := String.prefix "[Inline Frame]" (FunctionName sf);
     loc := {| path := None; lineno := None; column := None |} |}.

(** [any(name in fname for name in self.frames_below_main)] with
    [fname = frame.function or ''] *)
Definition is_below_main (frame : FrameIR) : bool :=
  let fname := default "" (function frame) in
  any (fun name => str_in name fname) frames_below_main.

(** Whether the loop stops at a stack frame of the debugger. *)
Definition cut (sf : StackFrame) : bool := is_below_main (make_frame sf).

(** The loop over the stack frames, with its [break]. *)
Fixpoint collect_frames (stackframes : list StackFrame) : list FrameIR :=
  match stackframes with
  | [] => []
  | sf :: rest =>
      let frame := make_frame sf in
      if is_below_main frame then [] else frame :: collect_frames rest
  end.

(** [if frames: frames[0].loc = loc] *)
Definition set_first_loc (l : LocIR) (frames : list FrameIR) : list FrameIR :=
  match frames with
  | [] => []
  | f :: rest =>
      {| function := function f; is_inlined := is_inlined f; loc := l |}
        :: rest
  end.

Definition get_step_info (self : Self) : result StepIR :=
  match _debugger self with
  | None => Raise
      (AttributeError "'NoneType' object has no attribute 'CurrentThread'")
  | Some b =>
      match CurrentThread b with
      | None => Raise
          (AttributeError "'NoneType' object has no attribute 'StackFrames'")
      | Some thread =>
          let stackframes := StackFrames thread in
          let frames := collect_frames stackframes in
          match _location self with
          | Raise e => Raise e
          | Ok l =>
              let frames := set_first_loc l frames in
              let reason :=
                match path l with
                | None => STEP
                | Some _ => BREAKPOINT
                end in
              Ok {| step_index := vs_step_index self;
                    frames := frames;
                    stop_reason := reason |}
          end
      end
  end.

Definition is_running (self : Self) : result bool :=
  match _mode self with
  | Ok m => Ok (m =? dbgRunMode)%Z
  | Raise e => Raise e
  end.

Definition is_finished (self : Self) : result bool :=
  match _mode self with
  | Ok m => Ok (m =? dbgDesignMode)%Z
  | Raise e => Raise e
  end.

Definition optimized_away_texts : list string :=
  [ "Variable is optimized away and not available";
    "Value is not available, possibly due to optimization" ].

Definition irretrievable_texts : list string :=
  [ "???"; "<Unable to read memory>" ].

Definition evaluate_expression (expr : string) (self : Self)
  : result ValueIR :=
  match _debugger self with
  | None => Raise
      (AttributeError "'NoneType' object has no attribute 'GetExpression'")
  | Some b =>
      let result := GetExpression expr b in
      let value := Value result in
      let optimized := any (fun s => str_in s value) optimized_away_texts in
      let irretrievable := any (fun s => str_in s value) irretrievable_texts in
      let could := IsValidValue result || optimized || irretrievable in
      Ok {| expression := expr;
            value_text := value;
            type_name := Type_ result;
            error_string := None;
            is_optimized_away := optimized;
            could_evaluate := could;
            is_irretrievable := irretrievable |}
  end.

End Driver.

End VisualStudio.

(** ** The sandbox subtool ([run_debugger_internal_/Tool.py]) *)

Module Tool.

(** What happens to the debugger session, in order. *)
Inductive Event : Type :=
| Entered            (* [debugger.__enter__] *)
| Started            (* [debugger.start] *)
| Exited.            (* [debugger.__exit__] *)

(** The state the subtool works on: the files it opens, the attributes of
    [self.context] it uses, the class attribute [Timer.display], and the
    record of what was done with the debugger. [options] is the [argparse]
    namespace, a map from attribute names to values. *)
Record Context : Type := mkContext {
  fs : gmap string string;
  options : gmap string value;
  dextIR : option DextIR;
  Timer_display : value;
  events : list Event
}.

Definition set_fs (f : gmap string string) (c : Context) : Context :=
  mkContext f (options c) (dextIR c) (Timer_display c) (events c).
Definition set_options (o : gmap string value) (c : Context) : Context :=
  mkContext (fs c) o (dextIR c) (Timer_display c) (events c).
Definition set_dextIR (ir : DextIR) (c : Context) : Context :=
  mkContext (fs c) (options c) (Some ir) (Timer_display c) (events c).
Definition set_Timer_display (v : value) (c : Context) : Context :=
  mkContext (fs c) (options c) (dextIR c) v (events c).
Definition log (e : Event) (c : Context) : Context :=
  mkContext (fs c) (options c) (dextIR c) (Timer_display c) (events c ++ [e]).

(** [self.context.options.<name>] *)
Definition getattr (name : string) : M Context value :=
  fun c =>
    match options c !! name with
    | Some v => (c, Ok v)
    | None => (c, Raise (AttributeError name))
    end.

(** [self.context.dextIR] *)
Definition get_dextIR : M Context DextIR :=
  fun c =>
    match dextIR c with
    | Some ir => (c, Ok ir)
    | None => (c, Raise (AttributeError "dextIR"))
    end.

(** [open(p).read()] *)
Definition read_file (p : value) : M Context string :=
  fun c =>
    match p with
    | VStr file =>
        match fs c !! file with
        | Some text => (c, Ok text)
        | None => (c, Raise (IOError file))
        end
    | _ => (c, Raise (TypeError "invalid file"))
    end.

(** [str(x)] for an optional string, as [format] renders it. *)
Definition str_opt (x : option string) : string := default "None" x.

(** A loaded driver object, as far as the subtool uses it. What [start]
    does to the trace it was given, and whether it raises, is the driver's
    business. *)
Record Debugger : Type := mkDebugger {
  name : string;
  is_available : bool;
  loading_error : option string;
  loading_error_trace : list string;
  debugger_info : string;
  start : DextIR -> DextIR * result unit
}.

(** The four attributes that the child takes from its own command line. *)
Definition carried_over : list string :=
  ["working_directory"; "lint"; "unittest"; "json"].

(** The context after [self.context.dextIR.debugger = ...]. *)
Definition with_info (dbg : Debugger) (ir : DextIR) (c : Context) : Context :=
  set_dextIR {| steps := steps ir; debugger := Some (debugger_info dbg) |} c.

Section Subtool.

(** [importDextIR], [pickle.load], the property [as_json] and
    [Debuggers(context).load] come from modules that are not embedded
    here; each of them may raise. *)
Variable importDextIR : string -> result DextIR.
Variable pickle_load : string -> result (gmap string value).
Variable as_json : DextIR -> result string.
Variable load : value -> DextIR -> result Debugger.

(** What the file system does with the trace file: [open_fault file] is
    the exception of [open(file, 'w')], if it raises, and
    [write_fault file text] is what a failing [fp.write(text)] leaves in the
    file, with its exception. *)
Variable open_fault : string -> option exn.
Variable write_fault : string -> string -> option (string * exn).

(** The classes of [dex.utils.Exceptions] are not embedded here: [derives]
    tells which exceptions are of a class that derives from
    [DebuggerException]. *)
Variable derives : exn -> bool.

(** [open(p, 'w')]: where it does not raise, the file is empty from then
    on. *)
Definition open_w (p : value) : M Context string :=
  fun c =>
    match p with
    | VStr file =>
        match open_fault file with
        | Some e => (c, Raise e)
        | None => (set_fs (<[file := ""]> (fs c)) c, Ok file)
        end
    | _ => (c, Raise (TypeError "invalid file"))
    end.

(** [fp.write(text)] on the file that was opened. *)
Definition fp_write (file text : string) : M Context unit :=
  fun c =>
    match write_fault file text with
    | Some (stored, e) => (set_fs (<[file := stored]> (fs c)) c, Raise e)
    | None => (set_fs (<[file := text]> (fs c)) c, Ok tt)
    end.

(** What [except DebuggerException as e] catches, with the text of [e]:
    the class itself and the classes that derive from it; an exception
    built into Python is none of them. *)
Definition as_DebuggerException (e : exn) : option string :=
  match e with
  | DebuggerException msg => Some msg
  | LoadDebuggerException msg | Error msg | ToolArgumentError msg
  | OtherException msg => if derives e then Some msg else None
  | _ => None
  end.

Definition handle_options : M Context unit :=
  (json <- getattr "json" ;;
   text <- read_file json ;;
   ir <- lift (importDextIR text) ;;
   modify (set_dextIR ir) ;;;
   pickled_options <- getattr "pickled_options" ;;
   data <- read_file pickled_options ;;
   poptions <- lift (pickle_load data) ;;
   working_directory <- getattr "working_directory" ;;
   copy <- lift (slice_all working_directory) ;;
   let poptions := <["working_directory" := copy]> poptions in
   lint <- getattr "lint" ;;
   let poptions := <["lint" := lint]> poptions in
   unittest <- getattr "unittest" ;;
   let poptions := <["unittest" := unittest]> poptions in
   json <- getattr "json" ;;
   let poptions := <["json" := json]> poptions in
   modify (set_options poptions) ;;;
   time_report <- getattr "time_report" ;;
   modify (set_Timer_display time_report))%stexn.

(** [self.context.dextIR.debugger = info] *)
Definition set_debugger_info (info : string) : M Context unit :=
  (ir <- get_dextIR ;;
   modify (set_dextIR {| steps := steps ir; debugger := Some info |}))%stexn.

(** The message of the error raised for a driver that is not available. *)
Definition could_not_load (debugger : Debugger) (verbose : bool) : string :=
  let msg :=
    "<d>could not load " +:+ name debugger +:+ "</> (" +:+
    str_opt (loading_error debugger) +:+ ")" +:+ nl in
  if verbose
  then msg +:+ nl +:+ "    " +:+ join "    " (loading_error_trace debugger)
  else msg.

(** [debugger.start()] on the trace the driver shares with the context. *)
Definition run_start (debugger : Debugger) : M Context unit :=
  fun c =>
    let c := log Started c in
    match dextIR c with
    | None => (c, Raise (AttributeError "dextIR"))
    | Some ir => let '(ir', r) := start debugger ir in (set_dextIR ir' c, r)
    end.

(** Modelled from the spec: the scoped acquisition of the session,
    section 4.1 ([__enter__] and [__exit__] belong to the driver base
    class, not embedded here): the session is acquired, the body
    runs, and the teardown runs on every exit path; an exception of the body
    goes on to the caller ([_custom_exit], which the teardown of this driver
    is, returns nothing). *)
Definition with_debugger {A} (body : M Context A) : M Context A :=
  fun c =>
    let '(c', r) := body (log Entered c) in (log Exited c', r).

(** [try: debugger.start() except DebuggerException as e: raise Error(e)] *)
Definition start_or_error (debugger : Debugger) : M Context unit :=
  fun c =>
    match run_start debugger c with
    | (c', Raise e) =>
        match as_DebuggerException e with
        | Some msg => (c', Raise (Error msg))
        | None => (c', Raise e)
        end
    | other => other
    end.

(** [Tool.go]; the [Timer] blocks around its parts only time them. The
    trace file is opened after both blocks are left, and the trace is
    serialized once the file is open. *)
Definition go : M Context unit :=
  (name <- getattr "debugger" ;;
   ir <- get_dextIR ;;
   debugger <- lift (load name ir) ;;
   set_debugger_info (debugger_info debugger) ;;;
   (if negb (is_available debugger)
    then verbose <- getattr "verbose" ;;
         raise (Error (could_not_load debugger (truthy verbose)))
    else with_debugger (start_or_error debugger)) ;;;
   json <- getattr "json" ;;
   fp <- open_w json ;;
   ir <- get_dextIR ;;
   text <- lift (as_json ir) ;;
   fp_write fp text)%stexn.

End Subtool.

End Tool.

(** ** The entry point ([Main.py]) *)

Module Main.

Import Tool.

(** How [main] ends: it returns a code, or an exception leaves it. *)
Inductive outcome : Type :=
| Returned (code : Z)
| Uncaught (e : exn).

(** Modelled from the spec: the exit code of the process, section 6 (the
    script that calls [main] is not embedded here): the value
    [main] returns, and the interpreter's code 1 for an exception that
    leaves it, [SystemExit] carrying its own. *)
Definition exit_code (o : outcome) : Z :=
  match o with
  | Returned code => code
  | Uncaught (SystemExit code) => code
  | Uncaught _ => 1
  end.

(** The end of [tool_main]: [tool.go()] inside the working directory, then
    [return 0]. *)
Definition tool_main_go (go : M Context unit) : M Context Z :=
  (go ;;; ret 0%Z)%stexn.

(** The report printed for an exception that is not an [Error]; the three
    arguments are the platform, the version and the command line. *)
Definition bug_report (platform version args : string) : string :=
  nl +:+ nl +:+
  "<g>****************************************</>" +:+ nl +:+
  "<b>****************************************</>" +:+ nl +:+
  "****************************************" +:+ nl +:+
  "**                                    **" +:+ nl +:+
  "** <y>This is a bug in <a>DExTer</>.</>           **" +:+ nl +:+
  "**                                    **" +:+ nl +:+
  "**                  <y>Please report it.</> **" +:+ nl +:+
  "**                                    **" +:+ nl +:+
  "****************************************" +:+ nl +:+
  "<b>****************************************</>" +:+ nl +:+
  "<g>****************************************</>" +:+ nl +:+
  nl +:+
  "<b>system:</>" +:+ nl +:+
  "<d>" +:+ platform +:+ "</>" +:+ nl +:+ nl +:+
  "<b>version:</>" +:+ nl +:+
  "<d>" +:+ version +:+ "</>" +:+ nl +:+ nl +:+
  "<b>args:</>" +:+ nl +:+
  "<d>" +:+ args +:+ "</>" +:+ nl +:+
  nl.

Section Handlers.

Variables platform version args : string.

(** The [except] clauses of [main], applied to how the body of its [try]
    ended in context [c]. The result is what was written to the error
    stream and how [main] ends. *)
Definition main_except (c : Context) (r : result Z) : list string * outcome :=
  match r with
  | Ok code => ([], Returned code)
  | Raise (Error msg) =>
      let printed := [nl +:+ "error: " +:+ msg +:+ nl] in
      match options c !! "error_debug" with
      | Some v =>
          if truthy v then (printed, Uncaught (Error msg))
          else (printed, Returned 1)
      | None => (printed, Returned 1)       (* [AttributeError]: [pass] *)
      end
  | Raise KeyboardInterrupt => ([], Uncaught KeyboardInterrupt)
  | Raise (SystemExit code) => ([], Uncaught (SystemExit code))
  | Raise e => ([bug_report platform version args], Uncaught e)
  end.

(** [main] from the point where the subtool's [go] is called. *)
Definition main_go (go : M Context unit) (c : Context)
  : Context * (list string * outcome) :=
  let '(c', r) := tool_main_go go c in (c', main_except c' r).

End Handlers.

End Main.

(** ** A simulated IDE and sample sessions

    Concrete inputs on which the definitions above are run. *)

Module Sim.

Import VisualStudio Tool.

#[global] Instance Breakpoint_eq_dec : EqDecision Breakpoint.
Proof. solve_decision. Defined.

(** A stand-in for the IDE behind the automation interface, on which the
    driver can be run. What it does with a request is one behaviour among
    those an IDE may have. *)
Record IDE : Type := mkIDE {
  mode : Z;
  thread : option Thread;
  last_hit : option Breakpoint;
  bps : list Breakpoint;
  watch : string -> Expression
}.

Definition set_mode (m : Z) (s : IDE) : IDE :=
  mkIDE m (thread s) (last_hit s) (bps s) (watch s).
Definition set_bps (l : list Breakpoint) (s : IDE) : IDE :=
  mkIDE (mode s) (thread s) (last_hit s) l (watch s).

Fixpoint remove_first (bp : Breakpoint) (l : list Breakpoint) : list Breakpoint :=
  match l with
  | [] => []
  | x :: rest => if decide (x = bp) then rest else x :: remove_first bp rest
  end.

#[global] Instance IDE_DTE : DTE IDE := {|
  CurrentMode := mode;
  CurrentThread := thread;
  BreakpointLastHit := last_hit;
  Breakpoints := bps;
  Breakpoints_Add := fun _ file line s =>
    (set_bps (bps s ++ [mkBreakpoint (Some file) (Some line) (Some 1%Z)]) s,
     Ok tt);
  Breakpoint_Delete := fun bp s => (set_bps (remove_first bp (bps s)) s, Ok tt);
  StepInto := fun s => (set_mode dbgBreakMode s, Ok tt);
  Go := fun s => (set_mode dbgRunMode s, Ok tt);
  GetExpression := fun e s => watch s e
|}.

(** The base class's hook leaves the name as the debugger reports it. *)
Definition keep_name (n : string) : option string := Some n.

Definition crt_stack : list StackFrame :=
  [ mkStackFrame "foo"; mkStackFrame "bar";
    mkStackFrame "mainCRTStartup"; mkStackFrame "__tmainCRTStartup" ].

Definition bp_a_10 : Breakpoint := mkBreakpoint (Some "a.cpp") (Some 10%Z) (Some 1%Z).

Definition no_value (e : string) : Expression :=
  mkExpression "" "" false.

(** A value text that carries both kinds of marker. *)
Definition mixed_value (e : string) : Expression :=
  mkExpression
    "{a=??? b=<Variable is optimized away and not available>}" "S" false.

Definition optimized_value (e : string) : Expression :=
  mkExpression "Variable is optimized away and not available" "int" false.

Definition ide (hit : option Breakpoint) (w : string -> Expression) : IDE :=
  mkIDE dbgBreakMode (Some (mkThread crt_stack)) hit [bp_a_10] w.

(** A driver after [_custom_init], stopped in the simulated IDE. *)
Definition driver (hit : option Breakpoint) (w : string -> Expression)
  : VisualStudio IDE :=
  mkVisualStudio (Some (ide hit w)) (Some Debugger_StepInto) (Some Debugger_Go) 0.

(** A driver whose IDE has no breakpoints. *)
Definition driver_no_bps : VisualStudio IDE :=
  mkVisualStudio (Some (mkIDE dbgDesignMode None None [] no_value))
                 (Some Debugger_StepInto) (Some Debugger_Go) 0.

(** *** A sample run of the subtool *)

Definition sample_step (i : Z) : StepIR :=
  mkStepIR i [mkFrameIR (Some "main") false (mkLocIR (Some "a.cpp") (Some (10 + i)%Z) None)]
           BREAKPOINT.

(** A driver that completes two steps and then fails. *)
Definition failing_start (ir : DextIR) : DextIR * result unit :=
  (mkDextIR (steps ir ++ [sample_step 0; sample_step 1]) (debugger ir),
   Raise (DebuggerException "step failed")).

Definition failing_debugger : Debugger :=
  mkDebugger "vs2015" true None [] "Visual Studio 2015" failing_start.

(** A driver that completes two steps and finishes. *)
Definition finishing_start (ir : DextIR) : DextIR * result unit :=
  (mkDextIR (steps ir ++ [sample_step 0; sample_step 1]) (debugger ir), Ok tt).

Definition working_debugger : Debugger :=
  mkDebugger "vs2015" true None [] "Visual Studio 2015" finishing_start.

(** A driver that could not be loaded. *)
Definition unavailable_debugger : Debugger :=
  mkDebugger "vs2015" false (Some "could not debug the specified executable")
             ["trace line"] "Visual Studio 2015" failing_start.

(** A serialization that tells traces of different lengths apart. *)
Definition step_mark (s : StepIR) : string :=
  match stop_reason s with
  | BREAKPOINT => "B"
  | STEP => "S"
  | _ => "?"
  end.

Definition sample_json (ir : DextIR) : string :=
  "{steps:" +:+ join "," (map step_mark (steps ir)) +:+ "}".

Definition sample_as_json (ir : DextIR) : result string :=
  Ok (sample_json ir).

(** A file system without faults, and an exception module in which no
    class derives from [DebuggerException]. *)
Definition no_open_fault (file : string) : option exn := None.
Definition no_write_fault (file text : string) : option (string * exn) := None.
Definition no_subclass (e : exn) : bool := false.

Definition sample_import (text : string) : result DextIR :=
  Ok (mkDextIR [] None).

Definition snapshot_options : gmap string value :=
  <["working_directory" := VStr "/old"]>
  (<["lint" := VStr "on"]>
  (<["unittest" := VStr "on"]>
  (<["json" := VStr "old.json"]>
  (<["time_report" := VBool false]>
  (<["executable" := VStr "a.exe"]>
  (<["debugger" := VStr "vs2015"]>
  (<["verbose" := VBool false]> ∅))))))).

Definition sample_unpickle (data : string) : result (gmap string value) :=
  Ok snapshot_options.

Definition live_options : gmap string value :=
  <["working_directory" := VStr "/tmp/run"]>
  (<["lint" := VStr "off"]>
  (<["unittest" := VStr "off"]>
  (<["json" := VStr "t.json"]>
  (<["pickled_options" := VStr "o.pickle"]>
  (<["debugger" := VStr "vs2015"]>
  (<["verbose" := VBool false]> ∅)))))).

Definition sample_fs : gmap string string :=
  <["t.json" := "{steps:}"]> (<["o.pickle" := "pickled"]> ∅).

Definition sample_context : Context :=
  mkContext sample_fs live_options (Some (mkDextIR [] None)) (VBool false) [].

Definition load_failing (n : value) (ir : DextIR) : result Debugger :=
  Ok failing_debugger.

Definition load_working (n : value) (ir : DextIR) : result Debugger :=
  Ok working_debugger.

Definition load_unavailable (n : value) (ir : DextIR) : result Debugger :=
  Ok unavailable_debugger.

End Sim.

(** ** Setting the driver up ([VisualStudio._custom_init]) *)

Module VisualStudioSetup.

Import VisualStudio.

(** The part of the automation surface that only the set-up uses: the
    display mode of the debugger, the main window and the solution. *)
Class DTESetup (B : Type) : Type := {
  Set_HexDisplayMode : bool -> B -> B * result unit;
  Set_MainWindow_Visible : value -> B -> B * result unit;
  Solution_Create : string -> string -> B -> B * result unit;
  Solution_AddFromFile : value -> B -> B * result unit
}.

Section Setup.

Context {B : Type} `{DTE B} `{DTESetup B}.

Local Abbreviation Self := (VisualStudio B).

Definition set_fn_step (fn : option BoundMethod) (self : Self) : Self :=
  mkVisualStudio (_debugger self) fn (_fn_go self) (vs_step_index self).

Definition set_fn_go (fn : option BoundMethod) (self : Self) : Self :=
  mkVisualStudio (_debugger self) (_fn_step self) fn (vs_step_index self).

(** [self.context.options.<name>], read by the driver. *)
Definition option_attr (options : gmap string value) (name : string)
  : M Self value :=
  fun self =>
    match options !! name with
    | Some v => (self, Ok v)
    | None => (self, Raise (AttributeError name))
    end.

(** [self._interface.Debugger]; [interface] is what [_load_interface] left
    in [self._interface], the IDE or [None]. *)
Definition interface_debugger (interface : option B) : M Self B :=
  fun self =>
    match interface with
    | Some b => (self, Ok b)
    | None =>
        (self, Raise (AttributeError
                        "'NoneType' object has no attribute 'Debugger'"))
    end.

(** The inner [try]: an [OSError] of [AddFromFile] becomes a
    [LoadDebuggerException]. [IOError] is the class [OSError] (they are one
    class in Python 3). *)
Definition add_from_file (executable : value) : M Self unit :=
  fun self =>
    match on_debugger (Solution_AddFromFile executable) self with
    | (self', Raise (IOError _)) =>
        (self', Raise (LoadDebuggerException
                         "could not debug the specified executable"))
    | other => other
    end.

(** The body of the outer [try]. The handle [_solution] is the IDE again
    and is not kept apart. *)
Definition custom_init_body (interface : option B)
    (options : gmap string value) (working_directory_path : string)
  : M Self unit :=
  (b <- interface_debugger interface ;;
   modify (set_debugger b) ;;;
   on_debugger (Set_HexDisplayMode false) ;;;
   show_debugger <- option_attr options "show_debugger" ;;
   on_debugger (Set_MainWindow_Visible show_debugger) ;;;
   on_debugger (Solution_Create working_directory_path "DexterSolution") ;;;
   executable <- option_attr options "executable" ;;
   add_from_file executable ;;;
   modify (set_fn_step (Some Debugger_StepInto)) ;;;
   modify (set_fn_go (Some Debugger_Go)))%stexn.

(** [except AttributeError as e: raise LoadDebuggerException(str(e), ...)] *)
Definition _custom_init (interface : option B)
    (options : gmap string value) (working_directory_path : string)
  : M Self unit :=
  fun self =>
    match custom_init_body interface options working_directory_path self with
    | (self', Raise (AttributeError msg)) =>
        (self', Raise (LoadDebuggerException msg))
    | other => other
    end.

End Setup.

End VisualStudioSetup.

(** ** Choosing and running a tool ([Main.py]) *)

Module MainTools.

Import Tool Main.

(** [s.replace(old, new)] for one-character [old] and [new]. *)
Fixpoint replace_char (old new : ascii) (s : string) : string :=
  match s with
  | EmptyString => EmptyString
  | String c rest =>
      String (if Ascii.eqb c old then new else c) (replace_char old new rest)
  end.

(** [s.endswith(c)] for a one-character [c]. *)
Fixpoint endswith_char (c : ascii) (s : string) : bool :=
  match s with
  | EmptyString => false
  | String d EmptyString => Ascii.eqb d c
  | String _ rest => endswith_char c rest
  end.

(** [s in l] for a list of strings. *)
Definition str_elem (s : string) (l : list string) : bool :=
  existsb (String.eqb s) l.

(** The double quote. *)
Definition dquote : string := String "034"%char "".

(** [get_tool_names]: [listing] is [os.listdir(tools_directory)] and
    [has_Tool_py t] tells whether [<tools_directory>/t/Tool.py] is a file. *)
Definition get_tool_names (listing : list string) (has_Tool_py : string -> bool)
  : list string :=
  map (replace_char "_" "-") (List.filter has_Tool_py listing).

(** The names that the message for an invalid tool offers. *)
Definition offered (valid_tools : list string) : list string :=
  List.filter (fun t => negb (endswith_char "-" t)) valid_tools.

Definition invalid_tool (tool_name : string) (valid_tools : list string)
  : string :=
  "invalid tool " +:+ dquote +:+ tool_name +:+ dquote +:+
  " (choose from " +:+ join ", " (offered valid_tools) +:+ ")".

(** The name of the module that [main] loads for [options.tool]. *)
Definition select_tool (tool : option string) (listing : list string)
    (has_Tool_py : string -> bool) : result string :=
  match tool with
  | None => Ok "no_tool_"
  | Some tool_name =>
      let valid_tools := get_tool_names listing has_Tool_py in
      if negb (str_elem tool_name valid_tools)
      then Raise (Error (invalid_tool tool_name valid_tools))
      else Ok (replace_char "-" "_" tool_name)
  end.

(** What [tool_main] does besides working on the context. *)
Inductive Action : Type :=
| UnitTests                   (* [unit_tests_ok(context)] *)
| Linting                     (* [linting_ok(context)] *)
| ColorTest                   (* [context.o.colortest()] *)
| Green (text : string).      (* [context.o.green(text)] *)

(** The context together with the rest of what [tool_main] assigns:
    [Timer.indent], [Timer.fn], [context.version]. *)
Record Process : Type := mkProcess {
  context : Context;
  Timer_indent : value;
  Timer_fn : option string;
  context_version : option string;
  actions : list Action
}.

Definition set_context (c : Context) (p : Process) : Process :=
  mkProcess c (Timer_indent p) (Timer_fn p) (context_version p) (actions p).
Definition set_Timer_indent (v : value) (p : Process) : Process :=
  mkProcess (context p) v (Timer_fn p) (context_version p) (actions p).
Definition set_Timer_fn (f : string) (p : Process) : Process :=
  mkProcess (context p) (Timer_indent p) (Some f) (context_version p) (actions p).
Definition set_context_version (v : string) (p : Process) : Process :=
  mkProcess (context p) (Timer_indent p) (Timer_fn p) (Some v) (actions p).
Definition act (a : Action) : M Process unit :=
  modify (fun p => mkProcess (context p) (Timer_indent p) (Timer_fn p)
                             (context_version p) (actions p ++ [a])).

(** A method of the tool, which works on the context. *)
Definition in_context {A} (m : M Context A) : M Process A :=
  fun p => let '(c, r) := m (context p) in (set_context c p, r).

(** [options.<name>] on the namespace that was parsed. *)
Definition attr (options : gmap string value) (name : string)
  : M Process value :=
  fun p =>
    match options !! name with
    | Some v => (p, Ok v)
    | None => (p, Raise (AttributeError name))
    end.

(** [v != 'off'] *)
Definition not_off (v : value) : bool :=
  match v with
  | VStr s => negb (String.eqb s "off")
  | _ => true
  end.

Section ToolMain.

(** [tool.parse_command_line(args)] (its second result, the defaults, only
    goes to [handle_base_options]), [version(tool.name)], the two
    harnesses, and the tool's [handle_base_options] and [go]. *)
Variable parse_command_line : result (gmap string value).
Variable version_text : string.
Variable unit_tests_ok : bool.
Variable linting_ok : bool.
Variable handle_base_options : M Context unit.
Variable go : M Context unit.

(** [try: tool.handle_base_options(defaults)
     except ToolArgumentError as e: raise Error(e)] *)
Definition handle_base_options_or_error : M Process unit :=
  fun p =>
    match in_context handle_base_options p with
    | (p', Raise (ToolArgumentError e)) => (p', Raise (Error e))
    | other => other
    end.

(** [tool_main]; the [Timer] and [WorkingDirectory] blocks only frame
    their bodies. *)
Definition tool_main : M Process Z :=
  (options <- lift parse_command_line ;;
   time_report <- attr options "time_report" ;;
   in_context (modify (set_Timer_display time_report)) ;;;
   indent_timer_level <- attr options "indent_timer_level" ;;
   modify (set_Timer_indent indent_timer_level) ;;;
   modify (set_Timer_fn "blue") ;;;
   in_context (modify (set_options options)) ;;;
   modify (set_context_version version_text) ;;;
   version <- attr options "version" ;;
   if truthy version
   then act (Green (version_text +:+ nl)) ;;; ret 0%Z
   else
     unittest <- attr options "unittest" ;;
     (if not_off unittest
      then act UnitTests ;;;
           if negb unit_tests_ok
           then raise (Error "<d>unit test failures</>")
           else ret tt
      else ret tt) ;;;
     lint <- attr options "lint" ;;
     (if not_off lint
      then act Linting ;;;
           if negb linting_ok
           then raise (Error "<d>linting failures</>")
           else ret tt
      else ret tt) ;;;
     colortest <- attr options "colortest" ;;
     if truthy colortest
     then act ColorTest ;;; ret 0%Z
     else
       handle_base_options_or_error ;;;
       dir_ <- in_context (getattr "working_directory") ;;
       in_context go ;;;
       ret 0%Z)%stexn.

End ToolMain.

Section MainFromTool.

Variables platform version args : string.

(** [main] from the choice of the tool on. [run_tool name] loads the
    module [name] and calls [tool_main] on its tool. *)
Definition main_from_tool (tool : option string) (listing : list string)
    (has_Tool_py : string -> bool) (run_tool : string -> M Process Z)
    (p : Process) : Process * (list string * outcome) :=
  match select_tool tool listing has_Tool_py with
  | Raise e => (p, main_except platform version args (context p) (Raise e))
  | Ok tool_name =>
      let '(p', r) := run_tool tool_name p in
      (p', main_except platform version args (context p') r)
  end.

End MainFromTool.

End MainTools.

(** ** Further sample sessions *)

Module Samples.

Import VisualStudio VisualStudioSetup Tool Main MainTools Sim.

(** The simulated IDE accepts the set-up requests; only [a.exe] can be
    added to its solution. *)
#[global] Instance IDE_DTESetup : DTESetup IDE := {|
  Set_HexDisplayMode := fun _ s => (s, Ok tt);
  Set_MainWindow_Visible := fun _ s => (s, Ok tt);
  Solution_Create := fun _ _ s => (set_mode dbgDesignMode s, Ok tt);
  Solution_AddFromFile := fun exe s =>
    match exe with
    | VStr "a.exe" => (s, Ok tt)
    | _ => (s, Raise (IOError "file not found"))
    end
|}.

(** An IDE that cannot create a solution in the directory [/readonly]. *)
Record Stubborn : Type := mkStubborn {
  ide_of : IDE
}.

Definition stubborn {A} (op : IDE -> IDE * result A) (s : Stubborn)
  : Stubborn * result A :=
  let '(i, r) := op (ide_of s) in (mkStubborn i, r).

#[global] Instance Stubborn_DTE : DTE Stubborn := {|
  CurrentMode := fun s => CurrentMode (ide_of s);
  CurrentThread := fun s => CurrentThread (ide_of s);
  BreakpointLastHit := fun s => BreakpointLastHit (ide_of s);
  Breakpoints := fun s => Breakpoints (ide_of s);
  Breakpoints_Add := fun f file line => stubborn (Breakpoints_Add f file line);
  Breakpoint_Delete := fun bp => stubborn (Breakpoint_Delete bp);
  StepInto := stubborn StepInto;
  Go := stubborn Go;
  GetExpression := fun e s => GetExpression e (ide_of s)
|}.

#[global] Instance Stubborn_DTESetup : DTESetup Stubborn := {|
  Set_HexDisplayMode := fun _ s => (s, Ok tt);
  Set_MainWindow_Visible := fun _ s => (s, Ok tt);
  Solution_Create := fun dir _ s =>
    if String.eqb dir "/readonly"
    then (s, Raise (IOError "cannot create the solution"))
    else (s, Ok tt);
  Solution_AddFromFile := fun _ s => (s, Ok tt)
|}.

Definition stubborn_ide (l : list Breakpoint) : Stubborn :=
  mkStubborn (mkIDE dbgBreakMode None None l no_value).

(** A driver stopped in an IDE that reports the given stack and last-hit
    breakpoint. *)
Definition ide_on (frames : list StackFrame) (hit : option Breakpoint) : IDE :=
  mkIDE dbgBreakMode (Some (mkThread frames)) hit [] no_value.

Definition driver_on (frames : list StackFrame) (hit : option Breakpoint)
    (index : Z) : VisualStudio IDE :=
  mkVisualStudio (Some (ide_on frames hit))
                 (Some Debugger_StepInto) (Some Debugger_Go) index.

(** The options the driver reads when it is set up. *)
Definition driver_options (executable : string) : gmap string value :=
  <["show_debugger" := VBool false]> (<["executable" := VStr executable]> ∅).

(** The IDE as [_load_interface] hands it over. *)
Definition fresh_ide : IDE := mkIDE dbgDesignMode None None [] no_value.

(** The directory of the tools, with a cache directory that holds no
    [Tool.py]. *)
Definition tools_listing : list string :=
  [ "clang_opt_bisect"; "help"; "list_debuggers"; "no_tool_";
    "run_debugger_internal_"; "test"; "__pycache__" ].

Definition tools_have_Tool_py (t : string) : bool :=
  negb (String.eqb t "__pycache__").

(** Parsed command lines. *)
Definition parsed (version unittest lint : value) : gmap string value :=
  <["time_report" := VBool true]>
  (<["indent_timer_level" := VInt 1]>
  (<["version" := version]>
  (<["unittest" := unittest]>
  (<["lint" := lint]>
  (<["colortest" := VBool false]>
  (<["working_directory" := VStr "/tmp/run"]>
  (<["json" := VStr "t.json"]>
  (<["debugger" := VStr "vs2015"]>
  (<["verbose" := VBool true]> ∅))))))))).

Definition fresh_context : Context :=
  mkContext sample_fs ∅ (Some (mkDextIR [] None)) VNone [].

Definition fresh_process : Process :=
  mkProcess fresh_context VNone None None [].

(** A [handle_base_options] that rejects the arguments, and one that
    accepts them. *)
Definition rejecting_options : M Context unit :=
  raise (ToolArgumentError "no executable given").

Definition accepting_options : M Context unit := ret tt.

(** Pickled options without a [time_report]. *)
Definition bare_unpickle (data : string) : result (gmap string value) :=
  Ok (<["executable" := VStr "a.exe"]> ∅).

(** A context without files, and one whose working directory was not
    given. *)
Definition context_without_files : Context :=
  mkContext ∅ live_options None VNone [].

Definition context_without_directory : Context :=
  mkContext sample_fs (<["working_directory" := VNone]> live_options)
            None VNone [].

(** A trace that cannot be serialized. *)
Definition failing_json (ir : DextIR) : result string :=
  Raise (OtherException "not serializable").

(** The context in which an [Error] is raised again. *)
Definition debug_context : Context :=
  mkContext sample_fs (<["error_debug" := VBool true]> live_options)
            None VNone [].

(** A driver whose [start] fails with something that is not a
    [DebuggerException]. *)
Definition crashing_start (ir : DextIR) : DextIR * result unit :=
  (mkDextIR (steps ir ++ [sample_step 0]) (debugger ir),
   Raise (OtherException "COM call failed")).

Definition crashing_debugger : Debugger :=
  mkDebugger "vs2015" true None [] "Visual Studio 2015" crashing_start.

Definition load_crashing (n : value) (ir : DextIR) : result Debugger :=
  Ok crashing_debugger.

(** A driver that could not be loaded, with a two-line trace. *)
Definition traced_debugger : Debugger :=
  mkDebugger "vs2015" false (Some "No module named ComInterface")
             ["File VisualStudio.py, line 41"; "ImportError"]
             "Visual Studio 2015" failing_start.

Definition load_traced (n : value) (ir : DextIR) : result Debugger :=
  Ok traced_debugger.

Definition verbose_context : Context :=
  mkContext sample_fs (<["verbose" := VBool true]> live_options)
            (Some (mkDextIR [] None)) (VBool false) [].

End Samples.
(** ** Properties of the substring test *)

Section StrIn.

Lemma prefix_app (s t : string) : String.prefix s (s +:+ t) = true.
Proof.
  induction s as [|c s IH]; simpl.
  - by destruct t.
  - destruct (Ascii.ascii_dec c c); [exact IH | congruence].
Qed.

Lemma prefix_split (s t : string) :
  String.prefix s t = true -> exists b, t = s +:+ b.
Proof.
  revert t; induction s as [|c s IH]; intros t Hp.
  - by exists t.
  - destruct t as [|d t]; simpl in Hp; [discriminate|].
    destruct (Ascii.ascii_dec c d) as [->|]; [|discriminate].
    destruct (IH _ Hp) as [b ->]. by exists b.
Qed.

(** [str_in] decides occurrence as a contiguous substring. *)
Lemma str_in_spec (s t : string) :
  str_in s t = true <-> exists a b, t = a +:+ s +:+ b.
Proof.
  split.
  - induction t as [|c t IH]; cbn [str_in]; intros H.
    + apply orb_true_iff in H as [H|H]; [|discriminate].
      apply prefix_split in H as [b ->]. by exists "", b.
    + apply orb_true_iff in H as [H|H].
      * apply prefix_split in H as [b Hb]. exists "", b. exact Hb.
      * destruct (IH H) as (a & b & ->). by exists (String c a), b.
  - intros (a & b & ->). induction a as [|c a IH].
    + change ("" +:+ s +:+ b) with (s +:+ b).
      destruct (s +:+ b) eqn:E; cbn [str_in]; rewrite <- E, prefix_app; done.
    + change (String c a +:+ s +:+ b) with (String c (a +:+ s +:+ b)).
      cbn [str_in]. rewrite IH. apply orb_true_r.
Qed.

Lemma prefix_refl (s : string) : String.prefix s s = true.
Proof.
  induction s as [|c s IH]; simpl; [done|].
  destruct (Ascii.ascii_dec c c); [exact IH | congruence].
Qed.

Lemma str_in_refl (s : string) : str_in s s = true.
Proof. destruct s; cbn [str_in]; [done|]. by rewrite prefix_refl. Qed.

Lemma string_app_assoc (a b c : string) : (a +:+ b) +:+ c = a +:+ b +:+ c.
Proof.
  induction a as [|x a IH]; [reflexivity|].
  change (String x ((a +:+ b) +:+ c) = String x (a +:+ b +:+ c)).
  by rewrite IH.
Qed.

Lemma str_in_here (s b : string) : str_in s (s +:+ b) = true.
Proof. apply str_in_spec. by exists "", b. Qed.

Lemma str_in_app_r (s u t : string) :
  str_in s t = true -> str_in s (u +:+ t) = true.
Proof.
  intros (a & b & ->)%str_in_spec. apply str_in_spec.
  exists (u +:+ a), b. by rewrite string_app_assoc.
Qed.

Lemma str_in_app_l (s t u : string) :
  str_in s t = true -> str_in s (t +:+ u) = true.
Proof.
  intros (a & b & ->)%str_in_spec. apply str_in_spec.
  exists a, (b +:+ u). by rewrite !string_app_assoc.
Qed.

End StrIn.


(** ** Laws of the monad *)

Section StateExnLaws.

Lemma bind_ret_r {S A} (m : M S A) (s : S) :
  bind m ret s = m s.
Proof. unfold bind, ret. by destruct (m s) as [s' [a|e]]. Qed.

Lemma bind_ret_unit {S} (m : M S unit) (s : S) :
  bind m (fun _ => ret tt) s = m s.
Proof. unfold bind, ret. by destruct (m s) as [s' [[]|e]]. Qed.

End StateExnLaws.

(** ** The driver: stepping, frames and stop reasons *)

Module VisualStudioProofs.

Import VisualStudio.

Section Driver.

Context {B : Type} `{DTE B}.
Variable sanitize : string -> option string.

Local Abbreviation Self := (VisualStudio B).

Lemma get_step_info_returns (self : Self) (b : B) (thread : Thread) :
  _debugger self = Some b ->
  CurrentThread b = Some thread ->
  exists s, get_step_info sanitize self = Ok s.
Proof.
  intros Hb Ht. unfold get_step_info, _location. rewrite Hb, Ht. eauto.
Qed.

Lemma get_step_info_inv (self : Self) (s : StepIR) :
  get_step_info sanitize self = Ok s ->
  exists b thread l,
    _debugger self = Some b /\ CurrentThread b = Some thread /\
    _location self = Ok l /\
    s = {| step_index := vs_step_index self;
           frames :=
             set_first_loc l (collect_frames sanitize (StackFrames thread));
           stop_reason :=
             match path l with None => STEP | Some _ => BREAKPOINT end |}.
Proof.
  unfold get_step_info, _location.
  destruct (_debugger self) as [b|] eqn:Hb; [|discriminate].
  destruct (CurrentThread b) as [thread|] eqn:Ht; [|discriminate].
  intros [= <-]. eexists b, thread, _. repeat split. exact Ht.
Qed.

(** The loop stops at a frame exactly when an entry of
    [frames_below_main] occurs in its sanitized name. *)
Lemma cut_spec (sf : StackFrame) :
  cut sanitize sf = true <->
  exists name a b,
    In name frames_below_main /\
    default "" (sanitize (FunctionName sf)) = a +:+ name +:+ b.
Proof.
  unfold cut, is_below_main, any, make_frame. cbn [function].
  rewrite existsb_exists. split.
  - intros (name & Hin & (a & b & Heq)%str_in_spec). by exists name, a, b.
  - intros (name & a & b & Hin & Heq). exists name. split; [exact Hin|].
    apply str_in_spec. by exists a, b.
Qed.

(** The loop keeps the longest prefix without a cut frame. *)
Lemma collect_frames_prefix (stackframes : list StackFrame) :
  exists kept rest,
    stackframes = kept ++ rest /\
    collect_frames sanitize stackframes = map (make_frame sanitize) kept /\
    Forall (fun sf => cut sanitize sf = false) kept /\
    match rest with
    | [] => True
    | sf :: _ => cut sanitize sf = true
    end.
Proof.
  induction stackframes as [|sf l IH]; cbn [collect_frames].
  - exists [], []. repeat split; constructor.
  - destruct (is_below_main (make_frame sanitize sf)) eqn:E.
    + exists [], (sf :: l). repeat split; [constructor | exact E].
    + destruct IH as (kept & rest & -> & Hc & Hk & Hr).
      exists (sf :: kept), rest. cbn [map app]. rewrite Hc.
      repeat split; [by constructor | exact Hr].
  Qed.

Lemma set_first_loc_function (l : LocIR) (fs : list FrameIR) :
  map function (set_first_loc l fs) = map function fs.
Proof. by destruct fs. Qed.

Lemma set_first_loc_is_inlined (l : LocIR) (fs : list FrameIR) :
  map is_inlined (set_first_loc l fs) = map is_inlined fs.
Proof. by destruct fs. Qed.

Lemma collect_frames_loc (stackframes : list StackFrame) :
  Forall (fun f => loc f = empty_loc) (collect_frames sanitize stackframes).
Proof.
  induction stackframes as [|sf l IH]; cbn [collect_frames]; [constructor|].
  destruct (is_below_main _); constructor; [reflexivity | exact IH].
Qed.

(** C1: in every Step that [get_step_info] returns, the stop reason is STEP
    when the location queried from the last-hit breakpoint has no path, and
    BREAKPOINT when it has one. *)
Theorem get_step_info_stop_reason (self : Self) (s : StepIR) (l : LocIR) :
  get_step_info sanitize self = Ok s ->
  _location self = Ok l ->
  (path l = None -> stop_reason s = STEP) /\
  (forall p, path l = Some p -> stop_reason s = BREAKPOINT).
Proof.
  intros Hs Hl.
  apply get_step_info_inv in Hs as (b & t & l' & _ & _ & Hl' & ->).
  rewrite Hl in Hl'. injection Hl' as <-. cbn [stop_reason].
  split; [intros -> | intros p ->]; reflexivity.
Qed.

Lemma crt_stack_frames :
  (forall sf, In sf Sim.crt_stack -> sanitize (FunctionName sf) = Some (FunctionName sf)) ->
  map function (collect_frames sanitize Sim.crt_stack) = [Some "foo"; Some "bar"].
Proof.
  intros Hs.
  assert (Hfoo : sanitize "foo" = Some "foo")
    by (apply (Hs (mkStackFrame "foo")); cbn; auto).
  assert (Hbar : sanitize "bar" = Some "bar")
    by (apply (Hs (mkStackFrame "bar")); cbn; auto).
  assert (Hcrt : sanitize "mainCRTStartup" = Some "mainCRTStartup")
    by (apply (Hs (mkStackFrame "mainCRTStartup")); cbn; auto).
  unfold Sim.crt_stack. cbn [collect_frames].
  unfold is_below_main, make_frame. cbn [function FunctionName].
  rewrite Hfoo, Hbar, Hcrt. reflexivity.
Qed.

(** C2: the frames of the Step that [get_step_info] returns are those of
    the innermost prefix of the reported call stack that ends just before
    the first frame whose (sanitized) function name contains an entry of
    [frames_below_main]; that frame and all frames outside it are absent.
    For the stack [foo, bar, mainCRTStartup, __tmainCRTStartup] the kept
    frames are exactly [foo, bar]. *)
Theorem get_step_info_frames_prefix (self : Self) (b : B) (thread : Thread)
    (s : StepIR) :
  _debugger self = Some b ->
  CurrentThread b = Some thread ->
  get_step_info sanitize self = Ok s ->
  (exists kept rest,
      StackFrames thread = kept ++ rest /\
      Forall (fun sf => cut sanitize sf = false) kept /\
      match rest with [] => True | sf :: _ => cut sanitize sf = true end /\
      length (frames s) = length kept /\
      map function (frames s) = map (fun sf => sanitize (FunctionName sf)) kept /\
      map is_inlined (frames s) =
        map (fun sf => String.prefix "[Inline Frame]" (FunctionName sf)) kept) /\
  (StackFrames thread = Sim.crt_stack ->
   (forall sf, In sf Sim.crt_stack ->
               sanitize (FunctionName sf) = Some (FunctionName sf)) ->
   map function (frames s) = [Some "foo"; Some "bar"]).
Proof.
  intros Hb Ht Hs.
  apply get_step_info_inv in Hs as (b' & t' & l & Hb' & Ht' & _ & ->).
  rewrite Hb in Hb'. injection Hb' as <-.
  rewrite Ht in Ht'. injection Ht' as <-. cbn [frames]. split.
  - destruct (collect_frames_prefix (StackFrames thread))
      as (kept & rest & Hst & Hc & Hk & Hr).
    exists kept, rest. rewrite set_first_loc_function, set_first_loc_is_inlined.
    rewrite <- (length_map function), set_first_loc_function, length_map.
    rewrite Hc, length_map, !map_map. repeat split; assumption.
  - intros -> Hid. rewrite set_first_loc_function.
    by apply crt_stack_frames.
Qed.

(** C6: in a Step that [get_step_info] returns with frames, the first
    (innermost) frame carries the location queried from the last-hit
    breakpoint, and every other frame carries the empty location: no path,
    no line, no column. *)
Theorem get_step_info_locations (self : Self) (s : StepIR) (l : LocIR)
    (f : FrameIR) (others : list FrameIR) :
  get_step_info sanitize self = Ok s ->
  _location self = Ok l ->
  frames s = f :: others ->
  loc f = l /\
  Forall (fun g => path (loc g) = None /\ lineno (loc g) = None /\
                   column (loc g) = None) others.
Proof.
  intros Hs Hl Hf.
  apply get_step_info_inv in Hs as (b & t & l' & _ & _ & Hl' & ->).
  rewrite Hl in Hl'. injection Hl' as <-. cbn [frames] in Hf.
  pose proof (collect_frames_loc (StackFrames t)) as Hall.
  destruct (collect_frames sanitize (StackFrames t)) as [|f0 fs0];
    cbn [set_first_loc] in Hf; [discriminate|].
  injection Hf as <- <-. split; [reflexivity|].
  inversion Hall as [|? ? _ Hrest]; subst.
  eapply Forall_impl; [exact Hrest|].
  intros g ->. by repeat split.
Qed.

(** C9: [launch] is an initial step: from every state of the driver it
    has the effect on the debugger, the result and the resulting state of
    one call of [step]. *)
Theorem launch_is_step (self : Self) :
  launch self = step self.
Proof. unfold launch. apply bind_ret_unit. Qed.

Lemma set_debugger_same (self : Self) (b : B) :
  _debugger self = Some b -> set_debugger b self = self.
Proof. destruct self; cbn. by intros ->. Qed.

Lemma on_debugger_run {A} (op : B -> B * result A) (self : Self) (b b' : B)
    (r : result A) :
  _debugger self = Some b -> op b = (b', r) ->
  on_debugger op self = (set_debugger b' self, r).
Proof. intros Hb Hop. unfold on_debugger. by rewrite Hb, Hop. Qed.

(** On a debugger that lists no breakpoint, [clear_breakpoints] asks for
    no [Delete] and leaves the driver as it is. *)
Lemma clear_breakpoints_none_listed (self : Self) (b : B) :
  _debugger self = Some b ->
  Breakpoints b = [] ->
  clear_breakpoints self = (self, Ok tt).
Proof.
  intros Hb Hnil. unfold clear_breakpoints.
  rewrite (on_debugger_run _ self b b (Ok tt) Hb).
  - by rewrite set_debugger_same.
  - by rewrite Hnil.
Qed.

Lemma evaluate_expression_inv (expr : string) (self : Self) (v : ValueIR) :
  evaluate_expression expr self = Ok v ->
  exists b,
    _debugger self = Some b /\
    let value := Value (GetExpression expr b) in
    let optimized := any (fun s => str_in s value) optimized_away_texts in
    let irretrievable := any (fun s => str_in s value) irretrievable_texts in
    v = {| expression := expr;
           value_text := value;
           type_name := Type_ (GetExpression expr b);
           error_string := None;
           is_optimized_away := optimized;
           could_evaluate :=
             IsValidValue (GetExpression expr b) || optimized || irretrievable;
           is_irretrievable := irretrievable |}.
Proof.
  unfold evaluate_expression.
  destruct (_debugger self) as [b|]; [|discriminate].
  intros [= <-]. by exists b.
Qed.

(** C3, as the driver has it: when the value text of the debugger contains
    an optimized-away marker, the result has [could_evaluate] and
    [is_optimized_away] set; [is_irretrievable] is set exactly when the
    text also contains an irretrievable marker, and so is clear when the
    text is just an optimized-away marker. *)
Theorem evaluate_expression_optimized_away (expr : string) (self : Self)
    (v : ValueIR) :
  evaluate_expression expr self = Ok v ->
  any (fun s => str_in s (value_text v)) optimized_away_texts = true ->
  could_evaluate v = true /\
  is_optimized_away v = true /\
  is_irretrievable v =
    any (fun s => str_in s (value_text v)) irretrievable_texts /\
  (In (value_text v) optimized_away_texts -> is_irretrievable v = false).
Proof.
  intros Hv Hopt. apply evaluate_expression_inv in Hv as (b & _ & ->).
  cbn [value_text could_evaluate is_optimized_away is_irretrievable] in *.
  rewrite Hopt. rewrite orb_true_r. repeat split.
  intros Hin. cbn in Hin.
  destruct Hin as [<-|[<-|[]]]; vm_compute; reflexivity.
Qed.

(** C10: in every result of [evaluate_expression], a set
    [is_optimized_away] or [is_irretrievable] comes with a set
    [could_evaluate], and [error_string] is absent. *)
Theorem evaluate_expression_flags (expr : string) (self : Self) (v : ValueIR) :
  evaluate_expression expr self = Ok v ->
  (is_optimized_away v = true \/ is_irretrievable v = true ->
   could_evaluate v = true) /\
  error_string v = None.
Proof.
  intros Hv. apply evaluate_expression_inv in Hv as (b & _ & ->).
  cbn [could_evaluate is_optimized_away is_irretrievable error_string].
  split; [|reflexivity].
  intros [-> | ->]; [rewrite orb_true_r; reflexivity | apply orb_true_r].
Qed.

Lemma evaluate_expression_returns (expr : string) (self : Self) (b : B) :
  _debugger self = Some b -> exists v, evaluate_expression expr self = Ok v.
Proof. intros Hb. unfold evaluate_expression. rewrite Hb. eauto. Qed.

End Driver.

(** *** The driver on the simulated IDE *)

Import Sim.

Example str_in_inside : str_in "CRT" "mainCRTStartup" = true.
Proof. reflexivity. Qed.

Example str_in_absent : str_in "main" "foo" = false.
Proof. reflexivity. Qed.

Example launch_before_custom_init :
  launch (init 0 : VisualStudio IDE)
    = (init 0, Raise (TypeError "'NoneType' object is not callable")).
Proof. reflexivity. Qed.

Example launch_steps_into :
  fst (launch (driver None no_value))
    = mkVisualStudio (Some (set_mode dbgBreakMode (ide None no_value)))
        (Some Debugger_StepInto) (Some Debugger_Go) 0.
Proof. reflexivity. Qed.

Example get_step_info_step :
  get_step_info keep_name (driver None no_value)
    = Ok (mkStepIR 0 [ mkFrameIR (Some "foo") false empty_loc;
                       mkFrameIR (Some "bar") false empty_loc ] STEP).
Proof. reflexivity. Qed.

Example get_step_info_breakpoint :
  get_step_info keep_name (driver (Some bp_a_10) no_value)
    = Ok (mkStepIR 0
            [ mkFrameIR (Some "foo") false
                (mkLocIR (Some "a.cpp") (Some 10%Z) (Some 1%Z));
              mkFrameIR (Some "bar") false empty_loc ] BREAKPOINT).
Proof. reflexivity. Qed.

Example get_step_info_without_thread :
  get_step_info keep_name driver_no_bps
    = Raise (AttributeError "'NoneType' object has no attribute 'StackFrames'").
Proof. reflexivity. Qed.

Lemma get_step_info_stop_reason_witness :
  exists s l,
    get_step_info keep_name (driver (Some bp_a_10) no_value) = Ok s /\
    _location (driver (Some bp_a_10) no_value) = Ok l /\
    (path l = None -> stop_reason s = STEP) /\
    (forall p, path l = Some p -> stop_reason s = BREAKPOINT).
Proof.
  eexists _, _. split; [reflexivity|]. split; [reflexivity|].
  apply (get_step_info_stop_reason keep_name (driver (Some bp_a_10) no_value));
    reflexivity.
Defined.

Lemma get_step_info_frames_prefix_witness :
  exists s,
    get_step_info keep_name (driver None no_value) = Ok s /\
    map function (frames s) = [Some "foo"; Some "bar"].
Proof.
  eexists. split; [reflexivity|].
  edestruct (get_step_info_frames_prefix keep_name (driver None no_value)
               (ide None no_value) (mkThread crt_stack)) as [_ Hexample];
    [reflexivity | reflexivity | reflexivity |].
  apply Hexample; [reflexivity | intros sf _; reflexivity].
Defined.

Lemma get_step_info_locations_witness :
  exists s f others,
    get_step_info keep_name (driver (Some bp_a_10) no_value) = Ok s /\
    frames s = f :: others /\
    loc f = mkLocIR (Some "a.cpp") (Some 10%Z) (Some 1%Z) /\
    Forall (fun g => path (loc g) = None /\ lineno (loc g) = None /\
                     column (loc g) = None) others.
Proof.
  eexists _, _, _. split; [reflexivity|]. split; [reflexivity|].
  eapply (get_step_info_locations keep_name (driver (Some bp_a_10) no_value));
    reflexivity.
Defined.

Lemma evaluate_expression_optimized_away_witness :
  exists v,
    evaluate_expression "x" (driver None optimized_value) = Ok v /\
    could_evaluate v = true /\ is_optimized_away v = true /\
    is_irretrievable v = false.
Proof.
  eexists. split; [reflexivity|].
  edestruct (evaluate_expression_optimized_away "x"
               (driver None optimized_value)) as (Hc & Ho & _ & Hi);
    [reflexivity | vm_compute; reflexivity |].
  split; [exact Hc|]. split; [exact Ho|]. apply Hi. left. reflexivity.
Defined.

(** A value text that holds an optimized-away marker next to an
    irretrievable one is marked irretrievable as well. *)
Lemma evaluate_expression_optimized_and_irretrievable :
  exists v,
    evaluate_expression "s" (driver None mixed_value) = Ok v /\
    any (fun s => str_in s (value_text v)) optimized_away_texts = true /\
    is_irretrievable v = true.
Proof. eexists. split; [reflexivity|]. split; reflexivity. Qed.

Lemma evaluate_expression_flags_witness :
  exists v,
    evaluate_expression "s" (driver None mixed_value) = Ok v /\
    ((is_optimized_away v = true \/ is_irretrievable v = true ->
      could_evaluate v = true) /\
     error_string v = None).
Proof.
  eexists. split; [reflexivity|].
  apply (evaluate_expression_flags "s" (driver None mixed_value)). reflexivity.
Defined.

End VisualStudioProofs.

(** ** The sandbox subtool and the entry point *)

Module ToolProofs.

Import Tool Main.

Lemma slice_all_copy (v w : value) : slice_all v = Ok w -> w = v.
Proof. destruct v; cbn; congruence. Qed.

(** *** One step of a method body at a time *)

Lemma bind_getattr (name : string) (v : value) {A}
    (k : value -> M Context A) (c : Context) :
  options c !! name = Some v -> bind (getattr name) k c = k v c.
Proof. intros Hv. unfold bind, getattr. by rewrite Hv. Qed.

Lemma bind_read_file (file text : string) {A}
    (k : string -> M Context A) (c : Context) :
  fs c !! file = Some text -> bind (read_file (VStr file)) k c = k text c.
Proof. intros Hv. unfold bind, read_file. by rewrite Hv. Qed.

Lemma bind_lift {A R} (a : A) (k : A -> M Context R) (c : Context) :
  bind (lift (Ok a)) k c = k a c.
Proof. reflexivity. Qed.

Lemma bind_modify (f : Context -> Context) {R}
    (k : unit -> M Context R) (c : Context) :
  bind (modify f) k c = k tt (f c).
Proof. reflexivity. Qed.

Lemma bind_get_dextIR (ir : DextIR) {R}
    (k : DextIR -> M Context R) (c : Context) :
  dextIR c = Some ir -> bind get_dextIR k c = k ir c.
Proof. intros Hv. unfold bind, get_dextIR. by rewrite Hv. Qed.

Lemma bind_raise {A R} (e : exn) (k : A -> M Context R) (c : Context) :
  bind (raise e) k c = (c, Raise e).
Proof. reflexivity. Qed.

Lemma bind_assoc {S A B C} (m : M S A) (f : A -> M S B) (g : B -> M S C) (s : S) :
  bind (bind m f) g s = bind m (fun a => bind (f a) g) s.
Proof. unfold bind. by destruct (m s) as [s' [a|e]]. Qed.

Ltac field_simpl_ctx :=
  cbn [options fs dextIR events Timer_display
       set_fs set_options set_dextIR set_Timer_display log].

Ltac attr H := erewrite bind_getattr by (field_simpl_ctx; exact H).
Ltac file H := erewrite bind_read_file by (field_simpl_ctx; exact H).
Ltac pure H := rewrite H, bind_lift.

Section Subtool.

Variable importDextIR : string -> result DextIR.
Variable pickle_load : string -> result (gmap string value).
Variable as_json : DextIR -> result string.
Variable load : value -> DextIR -> result Debugger.
Variable open_fault : string -> option exn.
Variable write_fault : string -> string -> option (string * exn).
Variable derives : exn -> bool.
Variables platform version args : string.

(** C8: when the child has read the pickled options, its working options
    are the pickled snapshot with exactly [working_directory], [lint],
    [unittest] and [json] replaced by the values of its live options;
    every other attribute is the snapshot's. *)
Theorem handle_options_overrides (c : Context) (json_file pickle_file : string)
    (text data : string) (ir : DextIR) (snapshot : gmap string value)
    (wd copy lint unittest time_report : value) :
  options c !! "json" = Some (VStr json_file) ->
  fs c !! json_file = Some text ->
  importDextIR text = Ok ir ->
  options c !! "pickled_options" = Some (VStr pickle_file) ->
  fs c !! pickle_file = Some data ->
  pickle_load data = Ok snapshot ->
  options c !! "working_directory" = Some wd ->
  slice_all wd = Ok copy ->
  options c !! "lint" = Some lint ->
  options c !! "unittest" = Some unittest ->
  snapshot !! "time_report" = Some time_report ->
  exists c',
    handle_options importDextIR pickle_load c = (c', Ok tt) /\
    (forall k, k ∈ carried_over -> options c' !! k = options c !! k) /\
    (forall k, k ∉ carried_over -> options c' !! k = snapshot !! k) /\
    fs c' = fs c.
Proof.
  intros Hjson Htext Himp Hpick Hdata Hload Hwd Hcopy Hlint Hunit Htime.
  pose proof (slice_all_copy _ _ Hcopy) as ->.
  eexists. split.
  - unfold handle_options.
    attr Hjson. file Htext. pure Himp. rewrite bind_modify.
    attr Hpick. file Hdata. pure Hload.
    attr Hwd. pure Hcopy. attr Hlint. attr Hunit. attr Hjson.
    rewrite bind_modify.
    assert (Htr : options (set_options
              (<["json" := VStr json_file]> (<["unittest" := unittest]>
                (<["lint" := lint]> (<["working_directory" := wd]> snapshot))))
              (set_dextIR ir c)) !! "time_report" = Some time_report)
      by (field_simpl_ctx; by rewrite !lookup_insert_ne).
    rewrite (bind_getattr _ _ _ _ Htr). reflexivity.
  - cbn [options fs set_Timer_display set_options set_dextIR].
    split; [|split; [|reflexivity]].
    + intros k Hk. unfold carried_over in Hk.
      rewrite !elem_of_cons in Hk. rewrite elem_of_nil in Hk.
      destruct Hk as [->|[->|[->|[->|[]]]]]; by simplify_map_eq.
    + intros k Hk. unfold carried_over in Hk.
      rewrite !not_elem_of_cons in Hk. destruct Hk as (?&?&?&?&_).
      by rewrite !lookup_insert_ne.
Qed.

Lemma go_loaded (c : Context) (name : value) (ir : DextIR) (dbg : Debugger) :
  options c !! "debugger" = Some name ->
  dextIR c = Some ir ->
  load name ir = Ok dbg ->
  go as_json load open_fault write_fault derives c =
    bind (if negb (is_available dbg)
          then bind (getattr "verbose")
                 (fun verbose => raise (Error (could_not_load dbg (truthy verbose))))
          else with_debugger (start_or_error derives dbg))
         (fun _ => bind (getattr "json") (fun json =>
                   bind (open_w open_fault json) (fun fp =>
                   bind get_dextIR (fun ir =>
                   bind (lift (as_json ir)) (fun text =>
                   fp_write write_fault fp text)))))
         (with_info dbg ir c).
Proof.
  intros Hname Hir Hload. unfold go.
  attr Hname. erewrite bind_get_dextIR by exact Hir. pure Hload.
  unfold set_debugger_info. rewrite bind_assoc.
  erewrite bind_get_dextIR by exact Hir. by rewrite bind_modify.
Qed.

Lemma go_unavailable (c : Context) (name verbose : value) (ir : DextIR)
    (dbg : Debugger) :
  options c !! "debugger" = Some name ->
  dextIR c = Some ir ->
  load name ir = Ok dbg ->
  is_available dbg = false ->
  options c !! "verbose" = Some verbose ->
  go as_json load open_fault write_fault derives c =
    (with_info dbg ir c, Raise (Error (could_not_load dbg (truthy verbose)))).
Proof.
  intros Hname Hir Hload Hav Hverb.
  rewrite (go_loaded c name ir dbg Hname Hir Hload), Hav. cbn [negb].
  rewrite bind_assoc. unfold with_info. attr Hverb. reflexivity.
Qed.

Lemma go_start_raises (c : Context) (name : value) (ir ir' : DextIR)
    (dbg : Debugger) (e : string) :
  options c !! "debugger" = Some name ->
  dextIR c = Some ir ->
  load name ir = Ok dbg ->
  is_available dbg = true ->
  start dbg {| steps := steps ir; debugger := Some (debugger_info dbg) |}
    = (ir', Raise (DebuggerException e)) ->
  go as_json load open_fault write_fault derives c =
    (log Exited (set_dextIR ir' (log Started (log Entered (with_info dbg ir c)))),
     Raise (Error e)).
Proof.
  intros Hname Hir Hload Hav Hstart.
  rewrite (go_loaded c name ir dbg Hname Hir Hload), Hav. cbn [negb].
  unfold bind at 1, with_debugger, start_or_error, run_start, with_info.
  field_simpl_ctx. rewrite Hstart. reflexivity.
Qed.

(** A run in which [start] returns and the file system has no fault
    writes the trace file. *)
Lemma go_start_returns (c : Context) (name : value) (file text : string)
    (ir ir' : DextIR) (dbg : Debugger) :
  options c !! "debugger" = Some name ->
  options c !! "json" = Some (VStr file) ->
  dextIR c = Some ir ->
  load name ir = Ok dbg ->
  is_available dbg = true ->
  start dbg {| steps := steps ir; debugger := Some (debugger_info dbg) |}
    = (ir', Ok tt) ->
  open_fault file = None ->
  as_json ir' = Ok text ->
  write_fault file text = None ->
  exists c',
    go as_json load open_fault write_fault derives c = (c', Ok tt) /\
    fs c' = <[file := text]> (fs c) /\
    dextIR c' = Some ir' /\
    events c' = events c ++ [Entered; Started; Exited].
Proof.
  intros Hname Hjson Hir Hload Hav Hstart Hopen Htext Hwrite.
  rewrite (go_loaded c name ir dbg Hname Hir Hload), Hav. cbn [negb].
  unfold bind at 1, with_debugger, start_or_error, run_start, with_info.
  field_simpl_ctx. rewrite Hstart.
  attr Hjson. unfold bind at 1, open_w. rewrite Hopen.
  erewrite bind_get_dextIR by (field_simpl_ctx; reflexivity).
  rewrite Htext, bind_lift. unfold fp_write. rewrite Hwrite.
  eexists. split; [reflexivity|]. field_simpl_ctx.
  rewrite insert_insert_eq. repeat split. by rewrite <- !app_assoc.
Qed.

Lemma could_not_load_diagnostic (dbg : Debugger) (verbose : bool) (diag : string) :
  loading_error dbg = Some diag ->
  str_in diag (could_not_load dbg verbose) = true.
Proof.
  intros Hd. unfold could_not_load. rewrite Hd. cbn [str_opt default].
  assert (Hmsg : str_in diag ("<d>could not load " +:+ name dbg +:+ "</> (" +:+
                              diag +:+ ")" +:+ nl) = true)
    by (do 3 apply str_in_app_r; apply str_in_here).
  destruct verbose; [by apply str_in_app_l | exact Hmsg].
Qed.

Lemma main_except_error (c : Context) (msg : string) :
  exists o,
    main_except platform version args c (Raise (Error msg))
      = ([nl +:+ "error: " +:+ msg +:+ nl], o) /\
    exit_code o <> 0%Z.
Proof.
  unfold main_except. destruct (options c !! "error_debug") as [v|].
  - destruct (truthy v); eexists; (split; [reflexivity | discriminate]).
  - eexists; (split; [reflexivity | discriminate]).
Qed.

(** C5: when the driver that was loaded is not available, the run ends
    with an exit code other than zero, the session is neither acquired nor
    started, the files are what they were before the run, and the message
    printed on the error stream contains the diagnostic of the load
    failure. *)
Theorem main_go_unavailable_driver (c : Context) (name verbose : value)
    (ir : DextIR) (dbg : Debugger) :
  options c !! "debugger" = Some name ->
  dextIR c = Some ir ->
  load name ir = Ok dbg ->
  is_available dbg = false ->
  options c !! "verbose" = Some verbose ->
  exists c' printed o,
    main_go platform version args (go as_json load open_fault write_fault derives) c = (c', (printed, o)) /\
    exit_code o <> 0%Z /\
    events c' = events c /\
    fs c' = fs c /\
    (forall diag, loading_error dbg = Some diag ->
                  Exists (fun line => str_in diag line = true) printed).
Proof.
  intros Hname Hir Hload Hav Hverb.
  pose proof (go_unavailable c name verbose ir dbg Hname Hir Hload Hav Hverb)
    as Hgo.
  destruct (main_except_error (with_info dbg ir c)
              (could_not_load dbg (truthy verbose))) as (o & Hprint & Hcode).
  exists (with_info dbg ir c), [nl +:+ "error: " +:+ could_not_load dbg (truthy verbose) +:+ nl], o.
  split; [|split; [exact Hcode | split; [reflexivity | split; [reflexivity|]]]].
  - unfold main_go, tool_main_go, bind. rewrite Hgo. by rewrite Hprint.
  - intros diag Hd. apply Exists_cons_hd.
    do 2 apply str_in_app_r. apply str_in_app_l.
    by apply could_not_load_diagnostic.
Qed.

(** C4, as the subtool has it: when [start] raises a [DebuggerException]
    after Steps were appended, the session is torn down, the exception
    becomes an [Error] whose text is printed, and the run ends with an exit
    code other than zero; the Steps completed before the failure are in the
    trace held in memory, and the files are what they were before the run:
    the trace file is not written. *)
Theorem main_go_start_failure (c : Context) (name : value) (ir ir' : DextIR)
    (dbg : Debugger) (e : string) :
  options c !! "debugger" = Some name ->
  dextIR c = Some ir ->
  load name ir = Ok dbg ->
  is_available dbg = true ->
  start dbg {| steps := steps ir; debugger := Some (debugger_info dbg) |}
    = (ir', Raise (DebuggerException e)) ->
  exists c' o,
    go as_json load open_fault write_fault derives c = (c', Raise (Error e)) /\
    main_go platform version args (go as_json load open_fault write_fault derives) c
      = (c', ([nl +:+ "error: " +:+ e +:+ nl], o)) /\
    exit_code o <> 0%Z /\
    events c' = events c ++ [Entered; Started; Exited] /\
    dextIR c' = Some ir' /\
    fs c' = fs c.
Proof.
  intros Hname Hir Hload Hav Hstart.
  pose proof (go_start_raises c name ir ir' dbg e Hname Hir Hload Hav Hstart)
    as Hgo.
  set (c' := log Exited (set_dextIR ir' (log Started (log Entered (with_info dbg ir c))))) in *.
  destruct (main_except_error c' e) as (o & Hprint & Hcode).
  exists c', o. split; [exact Hgo|].
  split; [|split; [exact Hcode | split; [|split; reflexivity]]].
  - unfold main_go, tool_main_go, bind. rewrite Hgo. by rewrite Hprint.
  - subst c'. unfold with_info. field_simpl_ctx. by rewrite <- !app_assoc.
Qed.

End Subtool.

(** *** The subtool on the sample run *)

Import Sim.

Example could_not_load_message :
  could_not_load unavailable_debugger false
    = "<d>could not load vs2015</> (could not debug the specified executable)"
      +:+ nl.
Proof. reflexivity. Qed.

Example go_working_sample :
  fs (fst (go sample_as_json load_working no_open_fault no_write_fault no_subclass sample_context)) !! "t.json"
    = Some "{steps:B,B}".
Proof. vm_compute. reflexivity. Qed.

Example go_unavailable_sample :
  go sample_as_json load_unavailable no_open_fault no_write_fault no_subclass sample_context
    = (with_info unavailable_debugger (mkDextIR [] None) sample_context,
       Raise (Error (could_not_load unavailable_debugger false))).
Proof. reflexivity. Qed.

Lemma handle_options_overrides_witness :
  exists c',
    handle_options sample_import sample_unpickle sample_context = (c', Ok tt) /\
    (forall k, k ∈ carried_over -> options c' !! k = live_options !! k) /\
    (forall k, k ∉ carried_over -> options c' !! k = snapshot_options !! k) /\
    fs c' = sample_fs.
Proof.
  apply (handle_options_overrides sample_import sample_unpickle sample_context
           "t.json" "o.pickle" "{steps:}" "pickled" (mkDextIR [] None)
           snapshot_options (VStr "/tmp/run") (VStr "/tmp/run")
           (VStr "off") (VStr "off") (VBool false));
    reflexivity.
Defined.

Lemma main_go_unavailable_driver_witness :
  exists c' printed o,
    main_go "win32" "1.0" "dexter.py"
      (go sample_as_json load_unavailable no_open_fault no_write_fault no_subclass) sample_context = (c', (printed, o)) /\
    exit_code o <> 0%Z /\
    events c' = [] /\
    fs c' = sample_fs /\
    (forall diag, loading_error unavailable_debugger = Some diag ->
                  Exists (fun line => str_in diag line = true) printed).
Proof.
  apply (main_go_unavailable_driver sample_as_json load_unavailable no_open_fault no_write_fault no_subclass
           "win32" "1.0" "dexter.py" sample_context
           (VStr "vs2015") (VBool false) (mkDextIR [] None)
           unavailable_debugger);
    reflexivity.
Defined.

Lemma main_go_start_failure_witness :
  exists c' o,
    go sample_as_json load_failing no_open_fault no_write_fault no_subclass sample_context
      = (c', Raise (Error "step failed")) /\
    main_go "win32" "1.0" "dexter.py"
      (go sample_as_json load_failing no_open_fault no_write_fault no_subclass) sample_context
      = (c', ([nl +:+ "error: " +:+ "step failed" +:+ nl], o)) /\
    exit_code o <> 0%Z /\
    events c' = [] ++ [Entered; Started; Exited] /\
    dextIR c' = Some (mkDextIR [sample_step 0; sample_step 1]
                               (Some "Visual Studio 2015")) /\
    fs c' = sample_fs.
Proof.
  apply (main_go_start_failure sample_as_json load_failing no_open_fault no_write_fault no_subclass
           "win32" "1.0" "dexter.py" sample_context
           (VStr "vs2015") (mkDextIR [] None) _ failing_debugger "step failed");
    reflexivity.
Defined.

(** On the sample run the driver fails after two Steps: the trace file
    still holds what it held before the run, which is not the
    serialization of the two Steps. *)
Lemma go_start_failure_trace_not_persisted :
  exists c' ir',
    go sample_as_json load_failing no_open_fault no_write_fault no_subclass sample_context
      = (c', Raise (Error "step failed")) /\
    dextIR c' = Some ir' /\
    length (steps ir') = 2 /\
    fs c' !! "t.json" = fs sample_context !! "t.json" /\
    fs c' !! "t.json" <> Some (sample_json ir').
Proof.
  eexists _, _. split; [reflexivity|]. split; [reflexivity|].
  split; [reflexivity|]. split; [reflexivity|].
  vm_compute. discriminate.
Qed.

End ToolProofs.

(** ** More on the driver: run state, breakpoints, frames, values *)

Module VisualStudioFacts.

Import VisualStudio.

Section Driver.

Context {B : Type} `{DTE B}.
Variable sanitize : string -> option string.

Local Abbreviation Self := (VisualStudio B).

(** X1: the debuggee is never reported both running and finished: when
    both queries answer, at most one of them is true. *)
Theorem run_state_exclusive (self : Self) (running finished : bool) :
  is_running self = Ok running ->
  is_finished self = Ok finished ->
  running && finished = false.
Proof.
  unfold is_running, is_finished.
  destruct (_mode self) as [m|]; [|discriminate].
  intros [= <-] [= <-]. unfold dbgRunMode, dbgDesignMode.
  destruct (Z.eqb_spec m 3) as [->|]; [reflexivity|reflexivity].
Qed.

Lemma on_debugger_fields {A} (op : B -> B * result A) (self : Self) :
  _fn_step (fst (on_debugger op self)) = _fn_step self /\
  _fn_go (fst (on_debugger op self)) = _fn_go self /\
  vs_step_index (fst (on_debugger op self)) = vs_step_index self.
Proof.
  unfold on_debugger. destruct (_debugger self) as [b|]; [|done].
  by destruct (op b).
Qed.

Lemma call_fields (fn : option BoundMethod) (self : Self) :
  _fn_step (fst (call fn self)) = _fn_step self /\
  _fn_go (fst (call fn self)) = _fn_go self /\
  vs_step_index (fst (call fn self)) = vs_step_index self.
Proof. destruct fn as [[]|]; [apply on_debugger_fields.. | done]. Qed.

(** X2: stepping, resuming and changing the breakpoints only act on the
    debugger: the stored step and go methods and the step index of the
    driver are the same afterwards, whether or not the operation raised. *)
Theorem operations_keep_fields (self : Self) (file_ : string) (line : Z) :
  let kept (self' : Self) :=
    _fn_step self' = _fn_step self /\
    _fn_go self' = _fn_go self /\
    vs_step_index self' = vs_step_index self in
  kept (fst (launch self)) /\
  kept (fst (step self)) /\
  kept (fst (go self)) /\
  kept (fst (clear_breakpoints self)) /\
  kept (fst (add_breakpoint file_ line self)).
Proof.
  cbv zeta. unfold launch. rewrite bind_ret_unit.
  split; [|split; [|split; [|split]]];
    first [ apply call_fields | apply on_debugger_fields ].
Qed.

Lemma collect_frames_kept (stackframes : list StackFrame) :
  Forall (fun f => is_below_main f = false)
         (collect_frames sanitize stackframes) /\
  length (collect_frames sanitize stackframes) <= length stackframes.
Proof.
  induction stackframes as [|sf l [IHf IHl]]; cbn [collect_frames length].
  - split; [constructor | lia].
  - destruct (is_below_main (make_frame sanitize sf)) eqn:E; cbn [length].
    + split; [constructor | lia].
    + split; [by constructor | lia].
Qed.

Lemma set_first_loc_below_main (l : LocIR) (fs : list FrameIR) :
  Forall (fun f => is_below_main f = false) fs ->
  Forall (fun f => is_below_main f = false) (set_first_loc l fs).
Proof.
  destruct fs as [|f fs]; cbn [set_first_loc]; [done|].
  intros Hall. inversion Hall; subst. by constructor.
Qed.

Lemma set_first_loc_length (l : LocIR) (fs : list FrameIR) :
  length (set_first_loc l fs) = length fs.
Proof. by destruct fs. Qed.

(** X4: no frame of a returned Step has a name that contains a start-up
    name, a Step never has more frames than the stack that was reported,
    and its index is the step index of the driver. *)
Theorem get_step_info_frames_above_main (self : Self) (b : B)
    (thread : Thread) (s : StepIR) :
  _debugger self = Some b ->
  CurrentThread b = Some thread ->
  get_step_info sanitize self = Ok s ->
  Forall (fun f => is_below_main f = false) (frames s) /\
  length (frames s) <= length (StackFrames thread) /\
  step_index s = vs_step_index self.
Proof.
  intros Hb Ht Hs.
  apply VisualStudioProofs.get_step_info_inv in Hs
    as (b' & t' & l & Hb' & Ht' & _ & ->).
  rewrite Hb in Hb'. injection Hb' as <-.
  rewrite Ht in Ht'. injection Ht' as <-. cbn [frames step_index].
  destruct (collect_frames_kept (StackFrames thread)) as [Hall Hlen].
  split; [by apply set_first_loc_below_main|].
  by rewrite set_first_loc_length.
Qed.

(** X5: while no breakpoint has been hit, every Step is classified STEP
    and none of its frames has a location. *)
Theorem get_step_info_without_breakpoint (self : Self) (b : B)
    (s : StepIR) :
  _debugger self = Some b ->
  BreakpointLastHit b = None ->
  get_step_info sanitize self = Ok s ->
  stop_reason s = STEP /\
  Forall (fun f => loc f = empty_loc) (frames s).
Proof.
  intros Hb Hhit Hs.
  apply VisualStudioProofs.get_step_info_inv in Hs
    as (b' & t & l & Hb' & _ & Hl & ->).
  rewrite Hb in Hb'. injection Hb' as <-.
  unfold _location in Hl. rewrite Hb, Hhit in Hl. injection Hl as <-.
  cbn [stop_reason frames path mbind option_bind]. split; [reflexivity|].
  pose proof (VisualStudioProofs.collect_frames_loc sanitize (StackFrames t))
    as Hall.
  destruct (collect_frames sanitize (StackFrames t)) as [|f fs];
    cbn [set_first_loc]; [constructor|].
  inversion Hall; subst. by constructor.
Qed.

Lemma collect_frames_cut_tail (kept rest rest' : list StackFrame)
    (sf : StackFrame) :
  cut sanitize sf = true ->
  collect_frames sanitize (kept ++ sf :: rest)
    = collect_frames sanitize (kept ++ sf :: rest').
Proof.
  intros Hcut. induction kept as [|k kept IH]; cbn [app collect_frames].
  - unfold cut in Hcut. by rewrite Hcut.
  - by rewrite IH.
Qed.

(** X6: what the debugger reports beyond a frame at which the loop stops
    has no part in the Step: two drivers that agree on everything but the
    frames after such a frame return the same Step. *)
Theorem get_step_info_ignores_outer_frames (self self' : Self) (b b' : B)
    (kept rest rest' : list StackFrame) (sf : StackFrame) :
  _debugger self = Some b ->
  _debugger self' = Some b' ->
  vs_step_index self = vs_step_index self' ->
  BreakpointLastHit b = BreakpointLastHit b' ->
  CurrentThread b = Some (mkThread (kept ++ sf :: rest)) ->
  CurrentThread b' = Some (mkThread (kept ++ sf :: rest')) ->
  cut sanitize sf = true ->
  get_step_info sanitize self = get_step_info sanitize self'.
Proof.
  intros Hb Hb' Hidx Hhit Ht Ht' Hcut.
  unfold get_step_info, _location.
  rewrite Hb, Hb', Ht, Ht', Hidx, Hhit. cbn [StackFrames].
  by rewrite (collect_frames_cut_tail kept rest rest' sf Hcut).
Qed.

(** X7: when the innermost frame is one at which the loop stops, the Step
    has no frames at all, and the location of the last-hit breakpoint
    appears in none: it only decides the stop reason. *)
Theorem get_step_info_innermost_cut (self : Self) (b : B) (sf : StackFrame)
    (rest : list StackFrame) :
  _debugger self = Some b ->
  CurrentThread b = Some (mkThread (sf :: rest)) ->
  cut sanitize sf = true ->
  get_step_info sanitize self =
    Ok {| step_index := vs_step_index self;
          frames := [];
          stop_reason :=
            match BreakpointLastHit b ≫= File with
            | None => STEP
            | Some _ => BREAKPOINT
            end |}.
Proof.
  intros Hb Ht Hcut. unfold get_step_info, _location.
  rewrite Hb, Ht. cbn [StackFrames collect_frames].
  unfold cut in Hcut. rewrite Hcut. reflexivity.
Qed.

(** X8: [evaluate_expression] hands the expression, the value text and
    the type through, and reports the expression as not evaluable exactly
    when the debugger calls the value invalid and the value text contains
    none of the four markers. *)
Theorem evaluate_expression_not_evaluable (expr : string) (self : Self)
    (b : B) (v : ValueIR) :
  _debugger self = Some b ->
  evaluate_expression expr self = Ok v ->
  expression v = expr /\
  value_text v = Value (GetExpression expr b) /\
  type_name v = Type_ (GetExpression expr b) /\
  (could_evaluate v = false <->
   IsValidValue (GetExpression expr b) = false /\
   forall marker,
     In marker (optimized_away_texts ++ irretrievable_texts) ->
     str_in marker (value_text v) = false).
Proof.
  intros Hb Hv.
  apply VisualStudioProofs.evaluate_expression_inv in Hv as (b' & Hb' & ->).
  rewrite Hb in Hb'. injection Hb' as <-.
  cbn [expression value_text type_name could_evaluate].
  split; [reflexivity|]. split; [reflexivity|]. split; [reflexivity|].
  unfold any. rewrite !orb_false_iff. split.
  - intros [[Hvalid Hopt] Hirr]. split; [exact Hvalid|].
    intros marker Hin. apply not_true_iff_false. intros Hm.
    apply in_app_or in Hin as [Hin|Hin].
    + apply not_true_iff_false in Hopt. apply Hopt, existsb_exists. eauto.
    + apply not_true_iff_false in Hirr. apply Hirr, existsb_exists. eauto.
  - intros [Hvalid Hnone].
    split; [split; [exact Hvalid|]|]; apply not_true_iff_false;
      intros (m & Hin & Hm)%existsb_exists;
      rewrite Hnone in Hm by (apply in_or_app; auto); discriminate.
Qed.

End Driver.

(** *** On the simulated IDE *)

Import Sim Samples.

Lemma run_state_exclusive_witness :
  is_running (fst (go (driver None no_value))) = Ok true /\
  is_finished (fst (go (driver None no_value))) = Ok false /\
  true && false = false.
Proof.
  split; [reflexivity|]. split; [reflexivity|].
  apply (run_state_exclusive (fst (go (driver None no_value))) true false);
    reflexivity.
Defined.

Lemma get_step_info_frames_above_main_witness :
  exists s,
    get_step_info keep_name (driver (Some bp_a_10) no_value) = Ok s /\
    Forall (fun f => is_below_main f = false) (frames s) /\
    length (frames s) <= 4 /\
    step_index s = 0%Z.
Proof.
  eexists. split; [reflexivity|].
  apply (get_step_info_frames_above_main keep_name
           (driver (Some bp_a_10) no_value) (ide (Some bp_a_10) no_value)
           (mkThread crt_stack));
    reflexivity.
Defined.

Lemma get_step_info_without_breakpoint_witness :
  exists s,
    get_step_info keep_name (driver None no_value) = Ok s /\
    stop_reason s = STEP /\
    Forall (fun f => loc f = empty_loc) (frames s).
Proof.
  eexists. split; [reflexivity|].
  apply (get_step_info_without_breakpoint keep_name (driver None no_value)
           (ide None no_value));
    reflexivity.
Defined.

Lemma get_step_info_ignores_outer_frames_witness :
  get_step_info keep_name (driver None no_value)
    = get_step_info keep_name
        (driver_on [ mkStackFrame "foo"; mkStackFrame "bar";
                     mkStackFrame "mainCRTStartup" ] None 0).
Proof.
  apply (get_step_info_ignores_outer_frames keep_name
           (driver None no_value)
           (driver_on [ mkStackFrame "foo"; mkStackFrame "bar";
                        mkStackFrame "mainCRTStartup" ] None 0)
           (ide None no_value)
           (ide_on [ mkStackFrame "foo"; mkStackFrame "bar";
                     mkStackFrame "mainCRTStartup" ] None)
           [mkStackFrame "foo"; mkStackFrame "bar"]
           [mkStackFrame "__tmainCRTStartup"] []
           (mkStackFrame "mainCRTStartup"));
    reflexivity.
Defined.

Lemma get_step_info_innermost_cut_witness :
  get_step_info keep_name
    (driver_on [ mkStackFrame "__scrt_common_main_seh"; mkStackFrame "foo" ]
               (Some bp_a_10) 7)
    = Ok (mkStepIR 7 [] BREAKPOINT).
Proof.
  exact (get_step_info_innermost_cut keep_name
           (driver_on [ mkStackFrame "__scrt_common_main_seh";
                        mkStackFrame "foo" ] (Some bp_a_10) 7)
           (ide_on [ mkStackFrame "__scrt_common_main_seh";
                     mkStackFrame "foo" ] (Some bp_a_10))
           (mkStackFrame "__scrt_common_main_seh") [mkStackFrame "foo"]
           eq_refl eq_refl eq_refl).
Defined.

Lemma evaluate_expression_not_evaluable_witness :
  exists v,
    evaluate_expression "x" (driver None no_value) = Ok v /\
    expression v = "x" /\
    could_evaluate v = false.
Proof.
  eexists. split; [reflexivity|].
  edestruct (evaluate_expression_not_evaluable "x" (driver None no_value)
               (ide None no_value)) as (He & _ & _ & Hc);
    [reflexivity | reflexivity |].
  split; [exact He|]. apply Hc. split; [reflexivity|].
  intros marker Hin. cbn in Hin.
  destruct Hin as [<-|[<-|[<-|[<-|[]]]]]; reflexivity.
Defined.

End VisualStudioFacts.

(** ** Setting the driver up *)

Module SetupFacts.

Import VisualStudio VisualStudioSetup.

Section Setup.

Context {B : Type} `{DTE B} `{DTESetup B}.

Local Abbreviation Self := (VisualStudio B).

Variable options : gmap string value.
Variable working_directory_path : string.

Lemma on_debugger_set {A} (op : B -> B * result A) (b : B) (self : Self) :
  on_debugger op (set_debugger b self) =
    (set_debugger (fst (op b)) self, snd (op b)).
Proof. unfold on_debugger. cbn. by destruct (op b). Qed.

(** The state of the driver when the set-up has got as far as adding the
    executable to the solution. *)
Lemma custom_init_body_until_add (self : Self) (b0 b1 b2 b3 : B)
    (show executable : value) :
  Set_HexDisplayMode false b0 = (b1, Ok tt) ->
  options !! "show_debugger" = Some show ->
  Set_MainWindow_Visible show b1 = (b2, Ok tt) ->
  Solution_Create working_directory_path "DexterSolution" b2 = (b3, Ok tt) ->
  options !! "executable" = Some executable ->
  custom_init_body (Some b0) options working_directory_path self =
    bind (add_from_file executable)
      (fun _ => bind (modify (set_fn_step (Some Debugger_StepInto)))
      (fun _ => modify (set_fn_go (Some Debugger_Go))))
      (set_debugger b3 self).
Proof.
  intros Hhex Hshow Hvis Hcreate Hexe.
  unfold custom_init_body, interface_debugger, option_attr.
  unfold bind at 1. unfold bind at 1. cbn [modify].
  unfold bind at 1. rewrite on_debugger_set, Hhex. cbn [fst snd].
  unfold bind at 1. rewrite Hshow.
  unfold bind at 1. rewrite on_debugger_set, Hvis. cbn [fst snd].
  unfold bind at 1. rewrite on_debugger_set, Hcreate. cbn [fst snd].
  unfold bind at 1. rewrite Hexe. reflexivity.
Qed.

(** X9: when the IDE accepts the four set-up requests (display mode,
    window, solution, executable), [_custom_init] returns with the driver
    bound to the IDE as the requests left it, and from then on [step] is
    the IDE's [StepInto] and [go] is the IDE's [Go]. *)
Theorem custom_init_ready (self : Self) (b0 b1 b2 b3 b4 : B)
    (show executable : value) :
  Set_HexDisplayMode false b0 = (b1, Ok tt) ->
  options !! "show_debugger" = Some show ->
  Set_MainWindow_Visible show b1 = (b2, Ok tt) ->
  Solution_Create working_directory_path "DexterSolution" b2 = (b3, Ok tt) ->
  options !! "executable" = Some executable ->
  Solution_AddFromFile executable b3 = (b4, Ok tt) ->
  exists self',
    _custom_init (Some b0) options working_directory_path self = (self', Ok tt) /\
    _debugger self' = Some b4 /\
    vs_step_index self' = vs_step_index self /\
    step self' = on_debugger StepInto self' /\
    go self' = on_debugger Go self'.
Proof.
  intros Hhex Hshow Hvis Hcreate Hexe Hadd. unfold _custom_init.
  rewrite (custom_init_body_until_add self b0 b1 b2 b3 show executable)
    by assumption.
  unfold bind at 1, add_from_file. rewrite on_debugger_set, Hadd.
  cbn [fst snd]. eexists. split; [reflexivity|]. by repeat split.
Qed.

(** X10: when [AddFromFile] raises an [OSError], [_custom_init] raises a
    [LoadDebuggerException] that says the executable could not be
    debugged; the driver is bound to the IDE but has no step method, so a
    [step] on a fresh driver then fails with a [TypeError]. *)
Theorem custom_init_executable_rejected (self : Self) (b0 b1 b2 b3 b4 : B)
    (show executable : value) (reason : string) :
  Set_HexDisplayMode false b0 = (b1, Ok tt) ->
  options !! "show_debugger" = Some show ->
  Set_MainWindow_Visible show b1 = (b2, Ok tt) ->
  Solution_Create working_directory_path "DexterSolution" b2 = (b3, Ok tt) ->
  options !! "executable" = Some executable ->
  Solution_AddFromFile executable b3 = (b4, Raise (IOError reason)) ->
  _fn_step self = None ->
  _custom_init (Some b0) options working_directory_path self =
    (set_debugger b4 self,
     Raise (LoadDebuggerException "could not debug the specified executable")) /\
  step (set_debugger b4 self) =
    (set_debugger b4 self,
     Raise (TypeError "'NoneType' object is not callable")).
Proof.
  intros Hhex Hshow Hvis Hcreate Hexe Hadd Hfn. unfold _custom_init.
  rewrite (custom_init_body_until_add self b0 b1 b2 b3 show executable)
    by assumption.
  unfold bind at 1, add_from_file. rewrite on_debugger_set, Hadd.
  cbn [fst snd]. split; [reflexivity|].
  unfold step. cbn [_fn_step set_debugger]. by rewrite Hfn.
Qed.

(** X11: no [AttributeError] leaves [_custom_init]: whatever the
    interface, the options and the IDE do, the exception is another one;
    without an interface it is the [LoadDebuggerException] with the text of
    the [AttributeError] for the attribute [Debugger] of [None], and the
    driver is as it was. *)
Theorem custom_init_no_attribute_error (interface : option B) (self : Self) :
  (forall self' msg,
      _custom_init interface options working_directory_path self
        <> (self', Raise (AttributeError msg))) /\
  _custom_init None options working_directory_path self =
    (self, Raise (LoadDebuggerException
                    "'NoneType' object has no attribute 'Debugger'")).
Proof.
  split; [|reflexivity].
  intros self' msg. unfold _custom_init.
  destruct (custom_init_body interface options working_directory_path self)
    as [s [[]|[]]]; congruence.
Qed.

(** X12: an exception of [Solution.Create] that is not an
    [AttributeError] leaves [_custom_init] as it is, an [OSError]
    included, and the executable is not added. *)
Theorem custom_init_create_fails (self : Self) (b0 b1 b2 b3 : B)
    (show : value) (e : exn) :
  Set_HexDisplayMode false b0 = (b1, Ok tt) ->
  options !! "show_debugger" = Some show ->
  Set_MainWindow_Visible show b1 = (b2, Ok tt) ->
  Solution_Create working_directory_path "DexterSolution" b2 = (b3, Raise e) ->
  (forall msg, e <> AttributeError msg) ->
  _custom_init (Some b0) options working_directory_path self =
    (set_debugger b3 self, Raise e).
Proof.
  intros Hhex Hshow Hvis Hcreate Hne.
  unfold _custom_init, custom_init_body, interface_debugger, option_attr.
  unfold bind at 1. unfold bind at 1. cbn [modify].
  unfold bind at 1. rewrite on_debugger_set, Hhex. cbn [fst snd].
  unfold bind at 1. rewrite Hshow.
  unfold bind at 1. rewrite on_debugger_set, Hvis. cbn [fst snd].
  unfold bind at 1. rewrite on_debugger_set, Hcreate. cbn [fst snd].
  destruct e; try reflexivity. by destruct (Hne msg).
Qed.

End Setup.

(** *** On the simulated IDE *)

Import Sim Samples.

Lemma custom_init_ready_witness :
  exists self',
    _custom_init (Some fresh_ide) (driver_options "a.exe") "/tmp/run"
                 (init 0) = (self', Ok tt) /\
    _debugger self' = Some fresh_ide /\
    vs_step_index self' = 0%Z /\
    step self' = on_debugger StepInto self' /\
    go self' = on_debugger Go self'.
Proof.
  apply (custom_init_ready (driver_options "a.exe") "/tmp/run" (init 0)
           fresh_ide fresh_ide fresh_ide fresh_ide fresh_ide
           (VBool false) (VStr "a.exe"));
    reflexivity.
Defined.

Lemma custom_init_executable_rejected_witness :
  _custom_init (Some fresh_ide) (driver_options "missing.exe") "/tmp/run"
               (init 0)
    = (set_debugger fresh_ide (init 0),
       Raise (LoadDebuggerException "could not debug the specified executable")) /\
  step (set_debugger fresh_ide (init 0))
    = (set_debugger fresh_ide (init 0),
       Raise (TypeError "'NoneType' object is not callable")).
Proof.
  apply (custom_init_executable_rejected (driver_options "missing.exe")
           "/tmp/run" (init 0)
           fresh_ide fresh_ide fresh_ide fresh_ide fresh_ide
           (VBool false) (VStr "missing.exe") "file not found");
    reflexivity.
Defined.

Lemma custom_init_no_attribute_error_witness :
  _custom_init (None : option IDE) (driver_options "a.exe") "/tmp/run" (init 0)
    = (init 0, Raise (LoadDebuggerException
                        "'NoneType' object has no attribute 'Debugger'")).
Proof.
  apply (proj2 (custom_init_no_attribute_error (driver_options "a.exe")
                  "/tmp/run" None (init 0))).
Defined.

Lemma custom_init_create_fails_witness :
  _custom_init (Some (stubborn_ide [])) (driver_options "a.exe") "/readonly"
               (init 0)
    = (set_debugger (stubborn_ide []) (init 0),
       Raise (IOError "cannot create the solution")).
Proof.
  apply (custom_init_create_fails (driver_options "a.exe") "/readonly" (init 0)
           (stubborn_ide []) (stubborn_ide []) (stubborn_ide []) (stubborn_ide [])
           (VBool false));
    [reflexivity | reflexivity | reflexivity | reflexivity | discriminate].
Defined.

End SetupFacts.

(** ** More on the subtool: what [handle_options] and [go] leave behind *)

Module ToolFacts.

Import Tool Main.

Section Subtool.

Variable importDextIR : string -> result DextIR.
Variable pickle_load : string -> result (gmap string value).
Variable as_json : DextIR -> result string.
Variable load : value -> DextIR -> result Debugger.
Variable open_fault : string -> option exn.
Variable write_fault : string -> string -> option (string * exn).
Variable derives : exn -> bool.
Variables platform version args : string.

Ltac unfold_steps :=
  unfold bind, getattr, get_dextIR, read_file, open_w, fp_write, lift, modify,
    raise, ret.

(** X13: when [handle_options] raises, the files, the session record and
    [Timer.display] are what they were, and so are the options, unless
    the exception is the [AttributeError] for a [time_report] that the
    pickled options lack: then the options of the context are already the
    pickled ones with the four live values written over them, and the
    trace is the imported one. *)
Theorem handle_options_failure (c c' : Context) (e : exn) :
  handle_options importDextIR pickle_load c = (c', Raise e) ->
  fs c' = fs c /\
  events c' = events c /\
  Timer_display c' = Timer_display c /\
  (options c' = options c \/
   e = AttributeError "time_report" /\
   exists json_file text ir pickle_file data snapshot wd lint unittest,
     options c !! "json" = Some (VStr json_file) /\
     fs c !! json_file = Some text /\
     importDextIR text = Ok ir /\
     dextIR c' = Some ir /\
     options c !! "pickled_options" = Some (VStr pickle_file) /\
     fs c !! pickle_file = Some data /\
     pickle_load data = Ok snapshot /\
     snapshot !! "time_report" = None /\
     options c !! "working_directory" = Some wd /\
     options c !! "lint" = Some lint /\
     options c !! "unittest" = Some unittest /\
     options c' =
       <["json" := VStr json_file]>
         (<["unittest" := unittest]>
            (<["lint" := lint]> (<["working_directory" := wd]> snapshot)))).
Proof.
  unfold handle_options. unfold_steps. intros Hrun.
  repeat (case_match; simplify_eq/=); try done.
  all: repeat (split; [done|]); auto.
  right. split; [done|].
  rewrite !lookup_insert_ne in * by done.
  match goal with
  | Hs : slice_all ?w = Ok ?w' |- _ =>
      pose proof (ToolProofs.slice_all_copy _ _ Hs) as ->
  end.
  eexists _, _, _, _, _, _, _, _, _. repeat split; eauto.
Qed.

(** X14: whenever [handle_options] returns, the trace of the context is
    the one imported from the file that the live option [json] names,
    [Timer.display] is the [time_report] of the pickled options, not of
    the live ones, and no file has changed. *)
Theorem handle_options_returns (c c' : Context) :
  handle_options importDextIR pickle_load c = (c', Ok tt) ->
  exists json_file text ir pickle_file data snapshot,
    options c !! "json" = Some (VStr json_file) /\
    fs c !! json_file = Some text /\
    importDextIR text = Ok ir /\
    dextIR c' = Some ir /\
    options c !! "pickled_options" = Some (VStr pickle_file) /\
    fs c !! pickle_file = Some data /\
    pickle_load data = Ok snapshot /\
    snapshot !! "time_report" = Some (Timer_display c') /\
    fs c' = fs c /\
    events c' = events c.
Proof.
  unfold handle_options. unfold_steps. intros Hrun.
  repeat (case_match; simplify_eq/=).
  all: rewrite !lookup_insert_ne in * by done.
  all: eexists _, _, _, _, _, _; repeat split; eauto.
Qed.

(** X15: when the trace file is missing, [handle_options] raises an
    [IOError] naming it and leaves the context exactly as it was: the
    pickled options are not looked at. *)
Theorem handle_options_without_trace (c : Context) (json_file : string) :
  options c !! "json" = Some (VStr json_file) ->
  fs c !! json_file = None ->
  handle_options importDextIR pickle_load c = (c, Raise (IOError json_file)).
Proof.
  intros Hjson Hfile. unfold handle_options. unfold_steps.
  by rewrite Hjson, Hfile.
Qed.

(** X16: a live [working_directory] that is not a sequence ([None], say)
    makes [handle_options] raise a [TypeError] after the trace was
    imported: the context has the new trace and still the live
    options. *)
Theorem handle_options_unsliceable_directory (c : Context)
    (json_file pickle_file text data : string) (ir : DextIR)
    (snapshot : gmap string value) (wd : value) (e : exn) :
  options c !! "json" = Some (VStr json_file) ->
  fs c !! json_file = Some text ->
  importDextIR text = Ok ir ->
  options c !! "pickled_options" = Some (VStr pickle_file) ->
  fs c !! pickle_file = Some data ->
  pickle_load data = Ok snapshot ->
  options c !! "working_directory" = Some wd ->
  slice_all wd = Raise e ->
  handle_options importDextIR pickle_load c = (set_dextIR ir c, Raise e).
Proof.
  intros Hjson Htext Himp Hpick Hdata Hload Hwd Hslice.
  unfold handle_options.
  ToolProofs.attr Hjson. ToolProofs.file Htext. ToolProofs.pure Himp.
  rewrite ToolProofs.bind_modify.
  ToolProofs.attr Hpick. ToolProofs.file Hdata. ToolProofs.pure Hload.
  ToolProofs.attr Hwd. by rewrite Hslice.
Qed.

Ltac unfold_go :=
  unfold go, set_debugger_info, with_debugger, start_or_error, run_start;
  unfold_steps.

(** X17: whenever [go] returns, the file that the option [json] names
    holds the serialization of the trace the context ends with, every
    other file is as it was, and the options are unchanged. *)
Theorem go_returns_written (c c' : Context) :
  go as_json load open_fault write_fault derives c = (c', Ok tt) ->
  exists file ir' text,
    options c !! "json" = Some (VStr file) /\
    dextIR c' = Some ir' /\
    as_json ir' = Ok text /\
    fs c' = <[file := text]> (fs c) /\
    options c' = options c.
Proof.
  unfold_go. intros Hrun.
  repeat (case_match; simplify_eq/=).
  all: rewrite insert_insert_eq.
  all: eexists _, _, _; repeat split; eauto.
Qed.

(** X18: whenever [go] raises, the options are unchanged, and either no
    file has changed or the session had been left and the trace file was
    open for writing: then that file alone has changed, and it is empty
    when serializing the trace raised, and holds what the failed write
    left otherwise. *)
Theorem go_raises_unwritten (c c' : Context) (e : exn) :
  go as_json load open_fault write_fault derives c = (c', Raise e) ->
  options c' = options c /\
  (fs c' = fs c \/
   exists file ir',
     options c !! "json" = Some (VStr file) /\
     open_fault file = None /\
     dextIR c' = Some ir' /\
     events c' = events c ++ [Entered; Started; Exited] /\
     (as_json ir' = Raise e /\ fs c' = <[file := ""]> (fs c) \/
      exists text stored,
        as_json ir' = Ok text /\
        write_fault file text = Some (stored, e) /\
        fs c' = <[file := stored]> (fs c))).
Proof.
  unfold_go. unfold log. intros Hrun.
  repeat (case_match; simplify_eq/=); split; try done; auto.
  all: right; eexists _, _; repeat (split; [eauto; by rewrite <- !app_assoc|]).
  - right. eexists _, _. rewrite insert_insert_eq. eauto.
  - left. eauto.
Qed.

(** X19: in every run of [go] the stepping is started at most once, only
    inside the session and only for a driver that was loaded and is
    available: the session record grows by nothing, or by entering,
    starting and leaving. *)
Theorem go_session_bracketed (c c' : Context) (r : result unit) :
  go as_json load open_fault write_fault derives c = (c', r) ->
  events c' = events c \/
  (events c' = events c ++ [Entered; Started; Exited] /\
   exists name ir dbg,
     options c !! "debugger" = Some name /\
     dextIR c = Some ir /\
     load name ir = Ok dbg /\
     is_available dbg = true).
Proof.
  unfold_go. unfold log. intros Hrun.
  repeat (case_match; simplify_eq/=); auto.
  all: right; split; [by rewrite <- !app_assoc|].
  all: eexists _, _, _; repeat split; eauto; by apply negb_false_iff.
Qed.

(** X20: an exception of [start] that [except DebuggerException] does
    not catch leaves [go] as it is once the session is torn down, and the
    trace file is not opened. [main] then prints the bug report and lets
    the exception through; an [Error] it prints as an error line, and a
    [KeyboardInterrupt] or [SystemExit] it lets through without a word. *)
Theorem main_go_start_crash (c : Context) (name : value) (ir ir' : DextIR)
    (dbg : Debugger) (e : exn) :
  options c !! "debugger" = Some name ->
  dextIR c = Some ir ->
  load name ir = Ok dbg ->
  is_available dbg = true ->
  start dbg {| steps := steps ir; debugger := Some (debugger_info dbg) |}
    = (ir', Raise e) ->
  as_DebuggerException derives e = None ->
  exists c',
    go as_json load open_fault write_fault derives c = (c', Raise e) /\
    fs c' = fs c /\
    dextIR c' = Some ir' /\
    events c' = events c ++ [Entered; Started; Exited] /\
    match e with
    | Error msg =>
        exists o,
          main_go platform version args
            (go as_json load open_fault write_fault derives) c
            = (c', ([nl +:+ "error: " +:+ msg +:+ nl], o))
    | KeyboardInterrupt | SystemExit _ =>
        main_go platform version args
          (go as_json load open_fault write_fault derives) c
          = (c', ([], Uncaught e))
    | _ =>
        main_go platform version args
          (go as_json load open_fault write_fault derives) c
          = (c', ([bug_report platform version args], Uncaught e))
    end.
Proof.
  intros Hname Hir Hload Hav Hstart Hnone.
  set (c' := log Exited (set_dextIR ir'
               (log Started (log Entered (with_info dbg ir c))))).
  assert (Hgo : go as_json load open_fault write_fault derives c
                = (c', Raise e)).
  { rewrite (ToolProofs.go_loaded as_json load open_fault write_fault derives
               c name ir dbg Hname Hir Hload), Hav.
    cbn [negb].
    unfold bind at 1, with_debugger, start_or_error, run_start, with_info.
    ToolProofs.field_simpl_ctx. by rewrite Hstart, Hnone. }
  exists c'. split; [exact Hgo|]. split; [reflexivity|]. split; [reflexivity|].
  split.
  { subst c'. unfold with_info. ToolProofs.field_simpl_ctx.
    by rewrite <- !app_assoc. }
  unfold main_go, tool_main_go, bind. rewrite Hgo.
  destruct e; try reflexivity.
  destruct (ToolProofs.main_except_error platform version args c' msg)
    as (o & Hprint & _).
  exists o. by rewrite Hprint.
Qed.

Lemma str_in_join (sep x : string) (xs : list string) :
  In x xs -> str_in x (join sep xs) = true.
Proof.
  induction xs as [|y ys IH]; [done|]. intros [->|Hin].
  - destruct ys; cbn [join]; [apply str_in_refl | apply str_in_here].
  - destruct ys as [|z zs]; [done|].
    change (join sep (y :: z :: zs)) with (y +:+ sep +:+ join sep (z :: zs)).
    do 2 apply str_in_app_r. by apply IH.
Qed.

(** X21: for a driver that is not available and a set [verbose] option,
    the error line that [main] prints contains every line of the
    driver's loading trace. *)
Theorem main_go_unavailable_verbose (c : Context) (name verbose : value)
    (ir : DextIR) (dbg : Debugger) (line : string) :
  options c !! "debugger" = Some name ->
  dextIR c = Some ir ->
  load name ir = Ok dbg ->
  is_available dbg = false ->
  options c !! "verbose" = Some verbose ->
  truthy verbose = true ->
  In line (loading_error_trace dbg) ->
  exists c' printed o,
    main_go platform version args (go as_json load open_fault write_fault derives) c = (c', (printed, o)) /\
    Exists (fun text => str_in line text = true) printed.
Proof.
  intros Hname Hir Hload Hav Hverb Htrue Hline.
  pose proof (ToolProofs.go_unavailable as_json load open_fault write_fault derives c name verbose ir dbg
                Hname Hir Hload Hav Hverb) as Hgo.
  destruct (ToolProofs.main_except_error platform version args
              (with_info dbg ir c) (could_not_load dbg (truthy verbose)))
    as (o & Hprint & _).
  eexists _, _, o. split.
  - unfold main_go, tool_main_go, bind. rewrite Hgo. by rewrite Hprint.
  - apply Exists_cons_hd. do 2 apply str_in_app_r. apply str_in_app_l.
    unfold could_not_load. rewrite Htrue.
    do 3 apply str_in_app_r. by apply str_in_join.
Qed.

End Subtool.

(** *** On the sample runs *)

Import Sim Samples.

Lemma handle_options_failure_witness :
  snd (handle_options sample_import bare_unpickle sample_context)
    = Raise (AttributeError "time_report") /\
  options (fst (handle_options sample_import bare_unpickle sample_context))
    <> live_options /\
  (fs (fst (handle_options sample_import bare_unpickle sample_context))
     = fs sample_context /\
   events (fst (handle_options sample_import bare_unpickle sample_context))
     = events sample_context /\
   Timer_display (fst (handle_options sample_import bare_unpickle sample_context))
     = Timer_display sample_context /\
   (options (fst (handle_options sample_import bare_unpickle sample_context))
      = options sample_context \/
    AttributeError "time_report" = AttributeError "time_report" /\
    exists json_file text ir pickle_file data snapshot wd lint unittest,
      options sample_context !! "json" = Some (VStr json_file) /\
      fs sample_context !! json_file = Some text /\
      sample_import text = Ok ir /\
      dextIR (fst (handle_options sample_import bare_unpickle sample_context))
        = Some ir /\
      options sample_context !! "pickled_options" = Some (VStr pickle_file) /\
      fs sample_context !! pickle_file = Some data /\
      bare_unpickle data = Ok snapshot /\
      snapshot !! "time_report" = None /\
      options sample_context !! "working_directory" = Some wd /\
      options sample_context !! "lint" = Some lint /\
      options sample_context !! "unittest" = Some unittest /\
      options (fst (handle_options sample_import bare_unpickle sample_context))
        = <["json" := VStr json_file]>
            (<["unittest" := unittest]>
               (<["lint" := lint]> (<["working_directory" := wd]> snapshot))))).
Proof.
  split; [reflexivity|]. split.
  - intros Heq.
    assert (Hl : options (fst (handle_options sample_import bare_unpickle
                                 sample_context)) !! "debugger"
                 = live_options !! "debugger") by (by rewrite Heq).
    vm_compute in Hl. discriminate.
  - apply (handle_options_failure sample_import bare_unpickle sample_context
             (fst (handle_options sample_import bare_unpickle sample_context))
             (AttributeError "time_report")).
    reflexivity.
Defined.

Lemma handle_options_returns_witness :
  exists json_file text ir pickle_file data snapshot,
    live_options !! "json" = Some (VStr json_file) /\
    sample_fs !! json_file = Some text /\
    sample_import text = Ok ir /\
    dextIR (fst (handle_options sample_import sample_unpickle sample_context))
      = Some ir /\
    live_options !! "pickled_options" = Some (VStr pickle_file) /\
    sample_fs !! pickle_file = Some data /\
    sample_unpickle data = Ok snapshot /\
    snapshot !! "time_report"
      = Some (Timer_display
                (fst (handle_options sample_import sample_unpickle
                        sample_context))) /\
    fs (fst (handle_options sample_import sample_unpickle sample_context))
      = sample_fs /\
    events (fst (handle_options sample_import sample_unpickle sample_context))
      = [].
Proof.
  apply (handle_options_returns sample_import sample_unpickle sample_context).
  reflexivity.
Defined.

Lemma handle_options_without_trace_witness :
  handle_options sample_import sample_unpickle context_without_files
    = (context_without_files, Raise (IOError "t.json")).
Proof.
  apply (handle_options_without_trace sample_import sample_unpickle
           context_without_files "t.json");
    reflexivity.
Defined.

Lemma handle_options_unsliceable_directory_witness :
  handle_options sample_import sample_unpickle context_without_directory
    = (set_dextIR (mkDextIR [] None) context_without_directory,
       Raise (TypeError "object is not subscriptable")).
Proof.
  apply (handle_options_unsliceable_directory sample_import sample_unpickle
           context_without_directory "t.json" "o.pickle" "{steps:}" "pickled"
           (mkDextIR [] None) snapshot_options VNone);
    reflexivity.
Defined.

Lemma go_returns_written_witness :
  exists file ir' text,
    options sample_context !! "json" = Some (VStr file) /\
    dextIR (fst (go sample_as_json load_working no_open_fault no_write_fault
                    no_subclass sample_context)) = Some ir' /\
    sample_as_json ir' = Ok text /\
    fs (fst (go sample_as_json load_working no_open_fault no_write_fault
                no_subclass sample_context))
      = <[file := text]> (fs sample_context) /\
    options (fst (go sample_as_json load_working no_open_fault no_write_fault
                     no_subclass sample_context))
      = options sample_context.
Proof.
  apply (go_returns_written sample_as_json load_working
           no_open_fault no_write_fault no_subclass sample_context).
  reflexivity.
Defined.

Lemma go_raises_unwritten_witness :
  snd (go failing_json load_working no_open_fault no_write_fault no_subclass
          sample_context)
    = Raise (OtherException "not serializable") /\
  fs (fst (go failing_json load_working no_open_fault no_write_fault
              no_subclass sample_context)) !! "t.json" = Some "" /\
  options (fst (go failing_json load_working no_open_fault no_write_fault
                   no_subclass sample_context))
    = options sample_context /\
  (fs (fst (go failing_json load_working no_open_fault no_write_fault
               no_subclass sample_context)) = fs sample_context \/
   exists file ir',
     options sample_context !! "json" = Some (VStr file) /\
     no_open_fault file = None /\
     dextIR (fst (go failing_json load_working no_open_fault no_write_fault
                     no_subclass sample_context)) = Some ir' /\
     events (fst (go failing_json load_working no_open_fault no_write_fault
                     no_subclass sample_context))
       = events sample_context ++ [Entered; Started; Exited] /\
     (failing_json ir' = Raise (OtherException "not serializable") /\
      fs (fst (go failing_json load_working no_open_fault no_write_fault
                  no_subclass sample_context))
        = <[file := ""]> (fs sample_context) \/
      exists text stored,
        failing_json ir' = Ok text /\
        no_write_fault file text
          = Some (stored, OtherException "not serializable") /\
        fs (fst (go failing_json load_working no_open_fault no_write_fault
                    no_subclass sample_context))
          = <[file := stored]> (fs sample_context))).
Proof.
  split; [reflexivity|]. split; [vm_compute; reflexivity|].
  apply (go_raises_unwritten failing_json load_working
           no_open_fault no_write_fault no_subclass sample_context
           (fst (go failing_json load_working no_open_fault no_write_fault
                    no_subclass sample_context))
           (OtherException "not serializable")).
  reflexivity.
Defined.

Lemma go_session_bracketed_witness :
  events (fst (go sample_as_json load_working no_open_fault no_write_fault no_subclass sample_context)) = [] \/
  (events (fst (go sample_as_json load_working no_open_fault no_write_fault no_subclass sample_context))
     = [] ++ [Entered; Started; Exited] /\
   exists name ir dbg,
     live_options !! "debugger" = Some name /\
     Some (mkDextIR [] None) = Some ir /\
     load_working name ir = Ok dbg /\
     is_available dbg = true).
Proof.
  apply (go_session_bracketed sample_as_json load_working no_open_fault no_write_fault no_subclass sample_context _ (Ok tt)).
  reflexivity.
Defined.

Lemma main_go_start_crash_witness :
  exists c',
    go sample_as_json load_crashing no_open_fault no_write_fault no_subclass
       sample_context
      = (c', Raise (OtherException "COM call failed")) /\
    fs c' = sample_fs /\
    dextIR c' = Some (mkDextIR [sample_step 0] (Some "Visual Studio 2015")) /\
    events c' = [] ++ [Entered; Started; Exited] /\
    main_go "win32" "1.0" "dexter.py"
      (go sample_as_json load_crashing no_open_fault no_write_fault no_subclass)
      sample_context
      = (c', ([bug_report "win32" "1.0" "dexter.py"],
              Uncaught (OtherException "COM call failed"))).
Proof.
  apply (main_go_start_crash sample_as_json load_crashing
           no_open_fault no_write_fault no_subclass
           "win32" "1.0" "dexter.py" sample_context
           (VStr "vs2015") (mkDextIR [] None) _ crashing_debugger
           (OtherException "COM call failed"));
    reflexivity.
Defined.

Lemma main_go_unavailable_verbose_witness :
  exists c' printed o,
    main_go "win32" "1.0" "dexter.py"
      (go sample_as_json load_traced no_open_fault no_write_fault no_subclass) verbose_context = (c', (printed, o)) /\
    Exists (fun text => str_in "ImportError" text = true) printed.
Proof.
  apply (main_go_unavailable_verbose sample_as_json load_traced no_open_fault no_write_fault no_subclass
           "win32" "1.0" "dexter.py" verbose_context
           (VStr "vs2015") (VBool true) (mkDextIR [] None) traced_debugger);
    first [reflexivity | cbn; auto].
Defined.

End ToolFacts.

(** ** Choosing the tool, the checks before it, and how [main] ends *)

Module MainFacts.

Import Tool Main MainTools.

Lemma replace_back (d : string) :
  replace_char "-" "_" (replace_char "_" "-" d) = replace_char "-" "_" d.
Proof.
  induction d as [|c d IH]; [reflexivity|]. cbn [replace_char].
  rewrite IH. f_equal.
  destruct (Ascii.eqb_spec c "_") as [->|Hne]; [reflexivity|].
  reflexivity.
Qed.

Lemma str_in_char_cons (x c : ascii) (s : string) :
  str_in (String x "") (String c s) = Ascii.eqb x c || str_in (String x "") s.
Proof.
  cbn [str_in String.prefix]. f_equal.
  destruct (Ascii.ascii_dec x c) as [->|Hne].
  - rewrite Ascii.eqb_refl. by destruct s.
  - symmetry. by apply Ascii.eqb_neq.
Qed.

Lemma replace_absent (old new : ascii) (d : string) :
  str_in (String old "") d = false -> replace_char old new d = d.
Proof.
  induction d as [|c d IH]; [reflexivity|].
  rewrite str_in_char_cons. intros [Hc Hd]%orb_false_iff.
  cbn [replace_char]. rewrite (IH Hd). f_equal.
  rewrite Ascii.eqb_sym in Hc. by rewrite Hc.
Qed.

Lemma replace_removes (old new : ascii) (d : string) :
  old <> new -> str_in (String old "") (replace_char old new d) = false.
Proof.
  intros Hne. induction d as [|c d IH]; [reflexivity|].
  cbn [replace_char]. rewrite str_in_char_cons, IH, orb_false_r.
  destruct (Ascii.eqb_spec c old) as [->|Hc]; apply Ascii.eqb_neq; congruence.
Qed.

Lemma endswith_replace (d : string) :
  endswith_char "_" d = true ->
  endswith_char "-" (replace_char "_" "-" d) = true.
Proof.
  induction d as [|c d IH]; [done|].
  cbn [replace_char endswith_char]. destruct d as [|c' d'].
  - cbn [replace_char]. intros ->. reflexivity.
  - intros Hd. specialize (IH Hd). cbn [replace_char] in *. exact IH.
Qed.

Lemma str_elem_In (t : string) (l : list string) :
  str_elem t l = true <-> In t l.
Proof.
  unfold str_elem. rewrite existsb_exists. split.
  - by intros (x & Hin & ->%String.eqb_eq).
  - intros Hin. exists t. by rewrite String.eqb_refl.
Qed.

Lemma get_tool_names_In (t : string) (listing : list string)
    (has_Tool_py : string -> bool) :
  In t (get_tool_names listing has_Tool_py) <->
  exists d, In d listing /\ has_Tool_py d = true /\ t = replace_char "_" "-" d.
Proof.
  unfold get_tool_names. rewrite in_map_iff. split.
  - intros (d & <- & (Hin & Hhas)%filter_In). by exists d.
  - intros (d & Hin & Hhas & ->). exists d. split; [done|].
    by apply filter_In.
Qed.

Section Selection.

Variable listing : list string.
Variable has_Tool_py : string -> bool.

(** X22: every tool directory that holds a [Tool.py] and has no hyphen in
    its name is reached by its name with the underscores written as
    hyphens: [main] accepts that name and loads the module of the
    directory. *)
Theorem select_tool_round_trip (d : string) :
  In d listing ->
  has_Tool_py d = true ->
  str_in "-" d = false ->
  select_tool (Some (replace_char "_" "-" d)) listing has_Tool_py = Ok d.
Proof.
  intros Hin Hhas Hhyphen. unfold select_tool.
  assert (Hvalid : str_elem (replace_char "_" "-" d)
                     (get_tool_names listing has_Tool_py) = true).
  { apply str_elem_In, get_tool_names_In. by exists d. }
  rewrite Hvalid. cbn [negb].
  by rewrite replace_back, (replace_absent "-" "_" d Hhyphen).
Qed.

(** X23: whenever [main] accepts a tool name, the module it loads is a
    listed directory that holds a [Tool.py], with the hyphens of its name
    turned into underscores; the name of the module has no hyphen, so a
    tool directory with a hyphen in its name is never loaded. *)
Theorem select_tool_sound (tool_name module_name : string) :
  select_tool (Some tool_name) listing has_Tool_py = Ok module_name ->
  (exists d,
      In d listing /\ has_Tool_py d = true /\
      tool_name = replace_char "_" "-" d /\
      module_name = replace_char "-" "_" d) /\
  str_in "-" module_name = false.
Proof.
  unfold select_tool.
  destruct (str_elem tool_name (get_tool_names listing has_Tool_py)) eqn:Hvalid;
    cbn [negb]; [|discriminate].
  intros [= <-]. split; [|by apply replace_removes].
  apply str_elem_In, get_tool_names_In in Hvalid as (d & Hin & Hhas & ->).
  exists d. by rewrite replace_back.
Qed.

(** X24: a tool whose directory name ends in an underscore is accepted
    under its hyphenated name, but that name is not among those the
    message for an invalid tool offers. *)
Theorem select_tool_internal (d : string) :
  In d listing ->
  has_Tool_py d = true ->
  str_in "-" d = false ->
  endswith_char "_" d = true ->
  select_tool (Some (replace_char "_" "-" d)) listing has_Tool_py = Ok d /\
  ~ In (replace_char "_" "-" d) (offered (get_tool_names listing has_Tool_py)).
Proof.
  intros Hin Hhas Hhyphen Hend. split.
  - unfold select_tool.
    assert (Hvalid : str_elem (replace_char "_" "-" d)
                       (get_tool_names listing has_Tool_py) = true).
    { apply str_elem_In, get_tool_names_In. by exists d. }
    rewrite Hvalid. cbn [negb].
    by rewrite replace_back, (replace_absent "-" "_" d Hhyphen).
  - unfold offered. intros [_ Hoff]%filter_In.
    by rewrite (endswith_replace d Hend) in Hoff.
Qed.

Variables platform version args : string.

(** X25: for a tool name that is not valid, [main] runs no tool, prints
    one error line that names the tool and every name on offer, and
    returns 1; [context.options] is not assigned yet, so the error is not
    raised again. *)
Theorem main_invalid_tool (tool_name : string) (run_tool : string -> M Process Z)
    (p : Process) :
  str_elem tool_name (get_tool_names listing has_Tool_py) = false ->
  options (context p) !! "error_debug" = None ->
  exists line,
    main_from_tool platform version args (Some tool_name) listing has_Tool_py
      run_tool p = (p, ([line], Returned 1)) /\
    str_in tool_name line = true /\
    forall t, In t (offered (get_tool_names listing has_Tool_py)) ->
              str_in t line = true.
Proof.
  intros Hinvalid Hdebug. eexists. split; [|split].
  - unfold main_from_tool, select_tool. rewrite Hinvalid. cbn [negb].
    unfold main_except. rewrite Hdebug. reflexivity.
  - do 2 apply str_in_app_r. apply str_in_app_l. unfold invalid_tool.
    do 2 apply str_in_app_r. apply str_in_here.
  - intros t Ht. do 2 apply str_in_app_r. apply str_in_app_l.
    unfold invalid_tool. do 5 apply str_in_app_r. apply str_in_app_l.
    by apply ToolFacts.str_in_join.
Qed.

(** X26: an exception never makes [main] return anything but 1. [main]
    returns 1 exactly for an [Error] while [error_debug] is absent or
    false; in every other case, an [Error] under a set [error_debug]
    included, the exception that was raised leaves [main]. *)
Theorem main_except_exception (c : Context) (e : exn) (printed : list string)
    (o : outcome) :
  main_except platform version args c (Raise e) = (printed, o) ->
  let debug :=
    exists v, options c !! "error_debug" = Some v /\ truthy v = true in
  (o = Returned 1 /\ (exists msg, e = Error msg) /\ ~ debug) \/
  (o = Uncaught e /\ ((exists msg, e = Error msg) -> debug)).
Proof.
  unfold main_except. intros Hrun. cbv zeta.
  destruct e; simplify_eq/=;
    try (right; split; [reflexivity|]; intros [? [=]]).
  destruct (options c !! "error_debug") as [v|] eqn:Hdebug.
  - destruct (truthy v) eqn:Hv; simplify_eq/=.
    + right. split; [reflexivity|]. intros _. by exists v.
    + left. split; [reflexivity|]. split; [by eexists|].
      intros (w & [= <-] & Hw). congruence.
  - simplify_eq/=. left. split; [reflexivity|]. split; [by eexists|].
    by intros (w & [=] & _).
Qed.

End Selection.

Section ToolMain.

Variable parse_command_line : result (gmap string value).
Variable version_text : string.
Variable unit_tests_ok : bool.
Variable linting_ok : bool.
Variable handle_base_options : M Context unit.
Variable go : M Context unit.

Local Abbreviation run :=
  (tool_main parse_command_line version_text unit_tests_ok linting_ok
             handle_base_options go).

(** The context once [tool_main] has taken the parsed options over. *)
Local Abbreviation taken_over options time_report c :=
  (set_options options (set_Timer_display time_report c)).

Ltac unfold_tool_main :=
  unfold tool_main, handle_base_options_or_error, in_context, attr, act,
    getattr;
  unfold bind, lift, modify, raise, ret.

(** X27: with the [version] option set, [tool_main] prints the version
    and returns 0 at once: neither harness is run, the tool neither
    handles its options nor goes, and no file changes. *)
Theorem tool_main_version (p : Process) (options : gmap string value)
    (time_report indent v : value) :
  parse_command_line = Ok options ->
  options !! "time_report" = Some time_report ->
  options !! "indent_timer_level" = Some indent ->
  options !! "version" = Some v ->
  truthy v = true ->
  exists p',
    run p = (p', Ok 0%Z) /\
    actions p' = actions p ++ [Green (version_text +:+ nl)] /\
    context p' = taken_over options time_report (context p).
Proof.
  intros Hparse Htime Hindent Hv Htrue. unfold_tool_main.
  rewrite Hparse, Htime. cbn. rewrite Hindent. cbn. rewrite Hv, Htrue. cbn.
  eexists. split; [reflexivity|]. by split.
Qed.

(** X28: when the unit tests are not switched off and fail, [tool_main]
    raises the [Error] for unit test failures right after running them:
    the linter is not run, and the tool neither handles its options nor
    goes. *)
Theorem tool_main_unit_tests_fail (p : Process) (options : gmap string value)
    (time_report indent v unittest : value) :
  parse_command_line = Ok options ->
  options !! "time_report" = Some time_report ->
  options !! "indent_timer_level" = Some indent ->
  options !! "version" = Some v ->
  truthy v = false ->
  options !! "unittest" = Some unittest ->
  not_off unittest = true ->
  unit_tests_ok = false ->
  exists p',
    run p = (p', Raise (Error "<d>unit test failures</>")) /\
    actions p' = actions p ++ [UnitTests] /\
    context p' = taken_over options time_report (context p).
Proof.
  intros Hparse Htime Hindent Hv Hfalse Hunit Hon Hfail. unfold_tool_main.
  rewrite Hparse, Htime. cbn. rewrite Hindent. cbn. rewrite Hv, Hfalse. cbn.
  rewrite Hunit, Hon. cbn. rewrite Hfail. cbn.
  eexists. split; [reflexivity|]. by split.
Qed.

(** X29: with both harnesses switched off, a [ToolArgumentError] of
    [handle_base_options] becomes an [Error] with the same text; neither
    harness has run and the tool does not go. *)
Theorem tool_main_argument_error (p : Process) (options : gmap string value)
    (time_report indent v unittest lint colortest : value) (c1 : Context)
    (msg : string) :
  parse_command_line = Ok options ->
  options !! "time_report" = Some time_report ->
  options !! "indent_timer_level" = Some indent ->
  options !! "version" = Some v ->
  truthy v = false ->
  options !! "unittest" = Some unittest ->
  not_off unittest = false ->
  options !! "lint" = Some lint ->
  not_off lint = false ->
  options !! "colortest" = Some colortest ->
  truthy colortest = false ->
  handle_base_options (taken_over options time_report (context p))
    = (c1, Raise (ToolArgumentError msg)) ->
  exists p',
    run p = (p', Raise (Error msg)) /\
    actions p' = actions p /\
    context p' = c1.
Proof.
  intros Hparse Htime Hindent Hv Hfalse Hunit Hoff Hlint Hloff Hcol Hcfalse
    Hhandle.
  unfold_tool_main.
  rewrite Hparse, Htime. cbn. rewrite Hindent. cbn. rewrite Hv, Hfalse. cbn.
  rewrite Hunit, Hoff. cbn. rewrite Hlint, Hloff. cbn.
  rewrite Hcol, Hcfalse. cbn. rewrite Hhandle. cbn.
  eexists. split; [reflexivity|]. by split.
Qed.

(** X30: with both harnesses switched off and the options handled,
    [tool_main] is the tool's [go]: it returns 0 when [go] returns and
    raises what [go] raises, the context is the one [go] leaves, and
    neither harness has run. *)
Theorem tool_main_runs_go (p : Process) (options : gmap string value)
    (time_report indent v unittest lint colortest dir_ : value)
    (c1 : Context) :
  parse_command_line = Ok options ->
  options !! "time_report" = Some time_report ->
  options !! "indent_timer_level" = Some indent ->
  options !! "version" = Some v ->
  truthy v = false ->
  options !! "unittest" = Some unittest ->
  not_off unittest = false ->
  options !! "lint" = Some lint ->
  not_off lint = false ->
  options !! "colortest" = Some colortest ->
  truthy colortest = false ->
  handle_base_options (taken_over options time_report (context p))
    = (c1, Ok tt) ->
  Tool.options c1 !! "working_directory" = Some dir_ ->
  exists p',
    run p = (p', match snd (go c1) with
                 | Ok _ => Ok 0%Z
                 | Raise e => Raise e
                 end) /\
    actions p' = actions p /\
    context p' = fst (go c1).
Proof.
  intros Hparse Htime Hindent Hv Hfalse Hunit Hoff Hlint Hloff Hcol Hcfalse
    Hhandle Hdir.
  unfold_tool_main.
  rewrite Hparse, Htime. cbn. rewrite Hindent. cbn. rewrite Hv, Hfalse. cbn.
  rewrite Hunit, Hoff. cbn. rewrite Hlint, Hloff. cbn.
  rewrite Hcol, Hcfalse. cbn. rewrite Hhandle. cbn. rewrite Hdir. cbn.
  destruct (go c1) as [c2 [[]|e]]; cbn;
    (eexists; split; [reflexivity|]; by split).
Qed.

End ToolMain.

(** *** On the sample tools *)

Import Sim Samples.

Lemma select_tool_round_trip_witness :
  select_tool (Some "list-debuggers") tools_listing tools_have_Tool_py
    = Ok "list_debuggers".
Proof.
  apply (select_tool_round_trip tools_listing tools_have_Tool_py
           "list_debuggers");
    [cbn; auto 10 | reflexivity | reflexivity].
Defined.

Lemma select_tool_sound_witness :
  (exists d,
      In d tools_listing /\ tools_have_Tool_py d = true /\
      "clang-opt-bisect" = replace_char "_" "-" d /\
      "clang_opt_bisect" = replace_char "-" "_" d) /\
  str_in "-" "clang_opt_bisect" = false.
Proof.
  apply (select_tool_sound tools_listing tools_have_Tool_py
           "clang-opt-bisect" "clang_opt_bisect").
  reflexivity.
Defined.

Lemma select_tool_internal_witness :
  select_tool (Some "run-debugger-internal-") tools_listing tools_have_Tool_py
    = Ok "run_debugger_internal_" /\
  ~ In "run-debugger-internal-"
       (offered (get_tool_names tools_listing tools_have_Tool_py)).
Proof.
  apply (select_tool_internal tools_listing tools_have_Tool_py
           "run_debugger_internal_");
    [cbn; auto 10 | reflexivity | reflexivity | reflexivity].
Defined.

Lemma main_invalid_tool_witness :
  exists line,
    main_from_tool "win32" "1.0" "dexter.py" (Some "tset")
      tools_listing tools_have_Tool_py (fun _ => ret 0%Z) fresh_process
      = (fresh_process, ([line], Returned 1)) /\
    str_in "tset" line = true /\
    forall t, In t (offered (get_tool_names tools_listing tools_have_Tool_py)) ->
              str_in t line = true.
Proof.
  apply (main_invalid_tool tools_listing tools_have_Tool_py
           "win32" "1.0" "dexter.py" "tset" (fun _ => ret 0%Z) fresh_process);
    reflexivity.
Defined.

Lemma main_except_exception_witness :
  main_except "win32" "1.0" "dexter.py" debug_context
    (Raise (Error "unit test failures"))
    = ([nl +:+ "error: " +:+ "unit test failures" +:+ nl],
       Uncaught (Error "unit test failures")) /\
  ((Uncaught (Error "unit test failures") = Returned 1 /\
    (exists msg, Error "unit test failures" = Error msg) /\
    ~ (exists v, options debug_context !! "error_debug" = Some v /\
                 truthy v = true)) \/
   (Uncaught (Error "unit test failures")
      = Uncaught (Error "unit test failures") /\
    ((exists msg, Error "unit test failures" = Error msg) ->
     exists v, options debug_context !! "error_debug" = Some v /\
               truthy v = true))).
Proof.
  split; [reflexivity|].
  apply (main_except_exception "win32" "1.0" "dexter.py" debug_context
           (Error "unit test failures")
           [nl +:+ "error: " +:+ "unit test failures" +:+ nl]
           (Uncaught (Error "unit test failures"))).
  reflexivity.
Defined.

Lemma tool_main_version_witness :
  exists p',
    tool_main (Ok (parsed (VBool true) (VStr "on") (VStr "on"))) "DExTer 1.0"
      false false rejecting_options (Tool.go sample_as_json load_working no_open_fault no_write_fault no_subclass)
      fresh_process = (p', Ok 0%Z) /\
    actions p' = [] ++ [Green ("DExTer 1.0" +:+ nl)] /\
    context p' =
      set_options (parsed (VBool true) (VStr "on") (VStr "on"))
        (set_Timer_display (VBool true) fresh_context).
Proof.
  apply (tool_main_version (Ok (parsed (VBool true) (VStr "on") (VStr "on")))
           "DExTer 1.0" false false rejecting_options
           (Tool.go sample_as_json load_working no_open_fault no_write_fault no_subclass) fresh_process
           (parsed (VBool true) (VStr "on") (VStr "on"))
           (VBool true) (VInt 1) (VBool true));
    reflexivity.
Defined.

Lemma tool_main_unit_tests_fail_witness :
  exists p',
    tool_main (Ok (parsed (VBool false) (VStr "on") (VStr "on"))) "DExTer 1.0"
      false true accepting_options (Tool.go sample_as_json load_working no_open_fault no_write_fault no_subclass)
      fresh_process = (p', Raise (Error "<d>unit test failures</>")) /\
    actions p' = [] ++ [UnitTests] /\
    context p' =
      set_options (parsed (VBool false) (VStr "on") (VStr "on"))
        (set_Timer_display (VBool true) fresh_context).
Proof.
  apply (tool_main_unit_tests_fail
           (Ok (parsed (VBool false) (VStr "on") (VStr "on")))
           "DExTer 1.0" false true accepting_options
           (Tool.go sample_as_json load_working no_open_fault no_write_fault no_subclass) fresh_process
           (parsed (VBool false) (VStr "on") (VStr "on"))
           (VBool true) (VInt 1) (VBool false) (VStr "on"));
    reflexivity.
Defined.

Lemma tool_main_argument_error_witness :
  exists p',
    tool_main (Ok (parsed (VBool false) (VStr "off") (VStr "off"))) "DExTer 1.0"
      false false rejecting_options (Tool.go sample_as_json load_working no_open_fault no_write_fault no_subclass)
      fresh_process = (p', Raise (Error "no executable given")) /\
    actions p' = [] /\
    context p' =
      set_options (parsed (VBool false) (VStr "off") (VStr "off"))
        (set_Timer_display (VBool true) fresh_context).
Proof.
  apply (tool_main_argument_error
           (Ok (parsed (VBool false) (VStr "off") (VStr "off")))
           "DExTer 1.0" false false rejecting_options
           (Tool.go sample_as_json load_working no_open_fault no_write_fault no_subclass) fresh_process
           (parsed (VBool false) (VStr "off") (VStr "off"))
           (VBool true) (VInt 1) (VBool false) (VStr "off") (VStr "off")
           (VBool false));
    reflexivity.
Defined.

Lemma tool_main_runs_go_witness :
  exists p',
    tool_main (Ok (parsed (VBool false) (VStr "off") (VStr "off"))) "DExTer 1.0"
      false false accepting_options (Tool.go sample_as_json load_working no_open_fault no_write_fault no_subclass)
      fresh_process = (p', Ok 0%Z) /\
    actions p' = [] /\
    fs (context p') !! "t.json" = Some "{steps:B,B}".
Proof.
  edestruct (tool_main_runs_go
               (Ok (parsed (VBool false) (VStr "off") (VStr "off")))
               "DExTer 1.0" false false accepting_options
               (Tool.go sample_as_json load_working no_open_fault no_write_fault no_subclass) fresh_process
               (parsed (VBool false) (VStr "off") (VStr "off"))
               (VBool true) (VInt 1) (VBool false) (VStr "off") (VStr "off")
               (VBool false) (VStr "/tmp/run"))
    as (p' & Hrun & Hact & Hctx);
    [reflexivity.. |].
  exists p'. split; [exact Hrun|]. split; [exact Hact|].
  rewrite Hctx. vm_compute. reflexivity.
Defined.

End MainFacts.
